(** * Shopify -> Everstox order pipeline: order fetcher and order mapper

    A shallow embedding of [src/infrastructure/order_repository.py]
    ([OrderRepository.fetch_orders], [OrderRepository._map]) and of
    [src/application/order_mapper.py] ([map_order_to_everstox] and its
    helpers), over the pydantic models of [src/domain/order.py] and
    [src/domain/everstox_order.py].

    Modelling conventions.
    - Python [float] is IEEE binary64: Rocq's primitive [float].
    - Python [str] is [string]; [str.lower] is ASCII lowercasing.
    - Exceptions (KeyError, ValueError, pydantic's ValidationError, ...) are
      the [Err] branch of [result].
    - A pydantic constructor that validates (e.g. [OrderItem] with
      [quantity >= 1]) is a smart constructor returning [result].
    - Optional pydantic fields ([x: T | None = None]) are [option T]. *)

From Stdlib Require Import Floats ZArith Ascii.
From stdpp Require Import base list gmap strings.

Open Scope Z_scope.

(** ** Python exceptions and the result monad *)

Inductive py_error :=
  | KeyError
  | ValueError
  | TypeError
  | ZeroDivisionError
  | OverflowError
  | ValidationError        (** pydantic.ValidationError *)
  | ShopifyGraphQLError    (** raised by [ShopifyGraphQLClient.execute] *)
  | HTTPStatusError.       (** httpx, non-2xx response *)

Inductive result (A : Type) :=
  | Ok (a : A)
  | Err (e : py_error).
Arguments Ok {A} a.
Arguments Err {A} e.

Global Instance result_ret : MRet result := fun _ a => Ok a.
Global Instance result_bind : MBind result := fun _ _ k m =>
  match m with Ok a => k a | Err e => Err e end.

(** A list comprehension whose element expression may raise. *)
Fixpoint map_result {A B} (f : A -> result B) (xs : list A) : result (list B) :=
  match xs with
  | [] => Ok []
  | x :: xs' => y ← f x; ys ← map_result f xs'; Ok (y :: ys)
  end.

(** Python's builtin [sum] over floats: [0 + x1 + x2 + ...], left to right. *)
Definition py_sum (xs : list float) : float :=
  fold_left (fun acc x => (acc + x)%float) xs 0%float.

(** ** Python's [float(s)] on a decimal string

    Accepts an optional sign, digits and an optional fractional part.  The
    value is [m / 10^k] rounded to nearest; this is the correctly rounded
    value Python computes whenever the digits form an integer below 2^53. *)

Definition Z_to_float (z : Z) : float :=
  SF2Prim (SpecFloat.binary_normalize prec emax z 0 false).

Fixpoint parse_digits (s : string) (acc : Z) (k : nat) (seen_dot : bool)
    (ndigits : nat) : option (Z * nat) :=
  match s with
  | EmptyString => if decide (ndigits = 0%nat) then None else Some (acc, k)
  | String c s' =>
      if decide (c = "."%char) then
        if seen_dot then None else parse_digits s' acc k true ndigits
      else
        let n := Ascii.nat_of_ascii c in
        if decide (48 <= n <= 57)%nat then
          parse_digits s' (10 * acc + Z.of_nat (n - 48)) (if seen_dot then S k else k)
            seen_dot (S ndigits)
        else None
  end.

Definition py_float (s : string) : result float :=
  let '(neg, body) :=
    match s with
    | String "-" s' => (true, s')
    | String "+" s' => (false, s')
    | _ => (false, s)
    end in
  match parse_digits body 0 0 false 0 with
  | Some (m, k) =>
      let v := (Z_to_float m / Z_to_float (10 ^ Z.of_nat k))%float in
      Ok (if neg then (- v)%float else v)
  | None => Err ValueError
  end.

(** Python's [str.lower] on ASCII text. *)
Definition ascii_lower (c : Ascii.ascii) : Ascii.ascii :=
  let n := Ascii.nat_of_ascii c in
  if decide (65 <= n <= 90)%nat then Ascii.ascii_of_nat (n + 32) else c.

Fixpoint py_lower (s : string) : string :=
  match s with
  | EmptyString => EmptyString
  | String c s' => String (ascii_lower c) (py_lower s')
  end.

(** ** Domain model: [src/domain/order.py] *)

Module OrderShippingAddress.
Record t := mk {
  first_name : string;
  last_name : string;
  country_code : string;
  city : string;
  zip : string;
  address_1 : string;
  address_2 : option string;
  phone : option string;
  province : option string }.
End OrderShippingAddress.

Module OrderBillingAddress.
Record t := mk {
  first_name : string;
  last_name : string;
  country_code : string;
  city : string;
  zip : string;
  address_1 : string;
  address_2 : option string;
  company : option string;
  phone : option string;
  country : option string;
  province : option string;
  province_code : option string }.
End OrderBillingAddress.

Module OrderTaxLine.
Record t := mk {
  rate : float;
  amount : float;
  currency : string }.
End OrderTaxLine.

Module OrderShippingLine.
Record t := mk {
  title : option string;
  code : option string;
  original_price : float;
  discounted_price : float;
  currency : string;
  tax_lines : list OrderTaxLine.t }.
End OrderShippingLine.

(** An entry of [custom_attributes: list[dict]]: a GraphQL [Attribute]
    [{key: String!, value: String}], whose value may be null. *)
Module Attribute.
Record t := mk {
  key : string;
  value : option string }.
End Attribute.

Module OrderLineItem.
Record t := mk {
  id : string;
  title : string;
  quantity : Z;
  sku : string;
  price : float;
  currency : string;
  tax_lines : list OrderTaxLine.t;
  discount_total : float;
  custom_attributes : list Attribute.t }.
End OrderLineItem.

Module Order.
Record t := mk {
  id : string;
  name : string;
  created_at : string;           (** ISO timestamp, kept opaque *)
  financial_status : string;
  fulfillment_status : option string;
  total_price : string;
  currency : string;
  tags : list string;
  email : option string;
  shipping_address : option OrderShippingAddress.t;
  billing_address : option OrderBillingAddress.t;
  shipping_line : option OrderShippingLine.t;
  line_items : list OrderLineItem.t }.
End Order.

(** ** Outbound DTO: [src/domain/everstox_order.py] *)

Module AddressType.
Inductive t := private | business.
End AddressType.

Module ShippingAddress.
Record t := mk {
  first_name : string;
  last_name : string;
  country_code : string;
  city : string;
  zip : string;
  address_1 : string;
  address_2 : option string;
  company : option string;
  phone : option string;
  title : option string;
  country : option string;
  province_code : option string;
  province : option string;
  longitude : option float;
  latitude : option float;
  contact_person : option string;
  department : option string;
  sub_department : option string;
  address_type : option AddressType.t }.
End ShippingAddress.

Module BillingAddress.
Record t := mk {
  first_name : string;
  last_name : string;
  country_code : string;
  city : string;
  zip : string;
  address_1 : string;
  address_2 : option string;
  company : option string;
  phone : option string;
  title : option string;
  country : option string;
  province_code : option string;
  province : option string;
  longitude : option float;
  latitude : option float;
  VAT_number : option string;
  contact_person : option string;
  department : option string;
  sub_department : option string;
  address_type : option AddressType.t }.
End BillingAddress.

Module ShippingPrice.
Record t := mk {
  currency : string;
  price_net_after_discount : float;
  tax_amount : float;
  tax_rate : float;
  price : float;
  tax : float;
  discount : float;
  discount_gross : float }.
End ShippingPrice.

Module CustomAttribute.
Record t := mk {
  attribute_key : string;
  attribute_value : string }.
End CustomAttribute.

Module ShipmentOption.
Record t := mk {
  id : option string;            (** UUID *)
  name : option string }.
End ShipmentOption.

Module PriceSet.
Record t := mk {
  quantity : Z;
  currency : string;
  price_net_after_discount : float;
  tax_amount : float;
  tax_rate : float;
  price : float;
  tax : float;
  discount : float;
  discount_gross : float }.
End PriceSet.

Module Product.
Record t := mk { sku : string }.
End Product.

Module OrderItem.
Record t := mk {
  quantity : Z;                  (** [Field(..., ge=1)] *)
  product : Product.t;
  shipment_options : list ShipmentOption.t;
  price_set : list PriceSet.t;
  custom_attributes : list CustomAttribute.t;
  requested_batch : option string;
  requested_batch_expiration_date : option string;
  picking_hint : option string;
  packing_hint : option string }.
End OrderItem.

Module Attachment.
Record t := mk {
  attachment_type : string;
  url : option string;
  content : option string;
  file_name : option string }.
End Attachment.

Module EverstoxOrder.
Record t := mk {
  shop_instance_id : string;     (** UUID *)
  order_number : string;
  order_date : string;
  customer_email : string;
  financial_status : string;
  shipping_address : ShippingAddress.t;
  billing_address : BillingAddress.t;
  shipping_price : ShippingPrice.t;
  order_items : list OrderItem.t;
  payment_method_id : option string;
  payment_method_name : option string;
  requested_warehouse_id : option string;
  requested_warehouse_name : option string;
  requested_delivery_date : option string;
  order_priority : option Z;
  picking_date : option string;
  print_return_label : bool;
  picking_hint : option string;
  packing_hint : option string;
  order_type : option string;
  custom_attributes : list CustomAttribute.t;
  attachments : list Attachment.t }.
End EverstoxOrder.

(** Pydantic validation of the constructors that can reject their input. *)

(** [CustomAttribute(attribute_key=k, attribute_value=v)]: [v] must be a [str]. *)
Definition new_CustomAttribute (k : string) (v : option string)
    : result CustomAttribute.t :=
  match v with
  | Some s => Ok (CustomAttribute.mk k s)
  | None => Err ValidationError
  end.

(** [OrderItem(quantity=q, ...)] with [quantity: int = Field(..., ge=1)]. *)
Definition new_OrderItem (q : Z) (p : Product.t) (opts : list ShipmentOption.t)
    (ps : list PriceSet.t) (cas : list CustomAttribute.t) : result OrderItem.t :=
  if decide (1 <= q) then
    Ok {| OrderItem.quantity := q; OrderItem.product := p;
          OrderItem.shipment_options := opts; OrderItem.price_set := ps;
          OrderItem.custom_attributes := cas;
          OrderItem.requested_batch := None;
          OrderItem.requested_batch_expiration_date := None;
          OrderItem.picking_hint := None; OrderItem.packing_hint := None |}
  else Err ValidationError.

(** ** The mapper: [src/application/order_mapper.py] *)

Definition _SHOP_INSTANCE_ID : string := "00000000-0000-0000-0000-000000000000".

Definition _map_shipping_address (addr : OrderShippingAddress.t) : ShippingAddress.t :=
  {| ShippingAddress.first_name := OrderShippingAddress.first_name addr;
     ShippingAddress.last_name := OrderShippingAddress.last_name addr;
     ShippingAddress.country_code := OrderShippingAddress.country_code addr;
     ShippingAddress.city := OrderShippingAddress.city addr;
     ShippingAddress.zip := OrderShippingAddress.zip addr;
     ShippingAddress.address_1 := OrderShippingAddress.address_1 addr;
     ShippingAddress.address_2 := OrderShippingAddress.address_2 addr;
     ShippingAddress.company := None;
     ShippingAddress.phone := OrderShippingAddress.phone addr;
     ShippingAddress.title := None;
     ShippingAddress.country := None;
     ShippingAddress.province_code := None;
     ShippingAddress.province := OrderShippingAddress.province addr;
     ShippingAddress.longitude := None; ShippingAddress.latitude := None;
     ShippingAddress.contact_person := None; ShippingAddress.department := None;
     ShippingAddress.sub_department := None; ShippingAddress.address_type := None |}.

Definition _map_billing_address (addr : OrderBillingAddress.t) : BillingAddress.t :=
  {| BillingAddress.first_name := OrderBillingAddress.first_name addr;
     BillingAddress.last_name := OrderBillingAddress.last_name addr;
     BillingAddress.country_code := OrderBillingAddress.country_code addr;
     BillingAddress.city := OrderBillingAddress.city addr;
     BillingAddress.zip := OrderBillingAddress.zip addr;
     BillingAddress.address_1 := OrderBillingAddress.address_1 addr;
     BillingAddress.address_2 := OrderBillingAddress.address_2 addr;
     BillingAddress.company := OrderBillingAddress.company addr;
     BillingAddress.phone := OrderBillingAddress.phone addr;
     BillingAddress.title := None;
     BillingAddress.country := OrderBillingAddress.country addr;
     BillingAddress.province_code := OrderBillingAddress.province_code addr;
     BillingAddress.province := OrderBillingAddress.province addr;
     BillingAddress.longitude := None; BillingAddress.latitude := None;
     BillingAddress.VAT_number := None;
     BillingAddress.contact_person := None; BillingAddress.department := None;
     BillingAddress.sub_department := None; BillingAddress.address_type := None |}.

(** The [PriceSet(...)] built for one line item. *)
Definition item_price_set (item : OrderLineItem.t) : PriceSet.t :=
  {| PriceSet.quantity := OrderLineItem.quantity item;
     PriceSet.currency := OrderLineItem.currency item;
     PriceSet.price := OrderLineItem.price item;
     PriceSet.price_net_after_discount :=
       (OrderLineItem.price item - OrderLineItem.discount_total item)%float;
     PriceSet.tax_amount := py_sum (map OrderTaxLine.amount (OrderLineItem.tax_lines item));
     PriceSet.tax_rate :=
       match OrderLineItem.tax_lines item with
       | t :: _ => OrderTaxLine.rate t
       | [] => 0%float
       end;
     PriceSet.tax := py_sum (map OrderTaxLine.amount (OrderLineItem.tax_lines item));
     PriceSet.discount := OrderLineItem.discount_total item;
     PriceSet.discount_gross := OrderLineItem.discount_total item |}.

(** One element of the comprehension in [_map_order_items]: the keyword
    arguments are evaluated first, then [OrderItem] validates. *)
Definition map_order_item (shipment_options : list ShipmentOption.t)
    (item : OrderLineItem.t) : result OrderItem.t :=
  cas ← map_result (fun ca => new_CustomAttribute (Attribute.key ca) (Attribute.value ca))
          (OrderLineItem.custom_attributes item);
  new_OrderItem (OrderLineItem.quantity item)
    (Product.mk (OrderLineItem.sku item)) shipment_options
    [item_price_set item] cas.

Definition _map_order_items (order_line_items : list OrderLineItem.t)
    (shipment_options : list ShipmentOption.t) : result (list OrderItem.t) :=
  map_result (map_order_item shipment_options) order_line_items.

(** Placeholder addresses used when Shopify returned null. *)
Definition fallback_shipping_address : ShippingAddress.t :=
  {| ShippingAddress.first_name := "TODO"; ShippingAddress.last_name := "TODO";
     ShippingAddress.country_code := "DE"; ShippingAddress.city := "TODO";
     ShippingAddress.zip := "00000"; ShippingAddress.address_1 := "TODO";
     ShippingAddress.address_2 := None; ShippingAddress.company := None;
     ShippingAddress.phone := None; ShippingAddress.title := None;
     ShippingAddress.country := None; ShippingAddress.province_code := None;
     ShippingAddress.province := None;
     ShippingAddress.longitude := None; ShippingAddress.latitude := None;
     ShippingAddress.contact_person := None; ShippingAddress.department := None;
     ShippingAddress.sub_department := None; ShippingAddress.address_type := None |}.

Definition fallback_billing_address : BillingAddress.t :=
  {| BillingAddress.first_name := "TODO"; BillingAddress.last_name := "TODO";
     BillingAddress.country_code := "DE"; BillingAddress.city := "TODO";
     BillingAddress.zip := "00000"; BillingAddress.address_1 := "TODO";
     BillingAddress.address_2 := None; BillingAddress.company := None;
     BillingAddress.phone := None; BillingAddress.title := None;
     BillingAddress.country := None; BillingAddress.province_code := None;
     BillingAddress.province := None;
     BillingAddress.longitude := None; BillingAddress.latitude := None;
     BillingAddress.VAT_number := None;
     BillingAddress.contact_person := None; BillingAddress.department := None;
     BillingAddress.sub_department := None; BillingAddress.address_type := None |}.

(** [ShippingPrice(...)] as built in [map_order_to_everstox]; [sl] is
    [order.shipping_line], [currency] is [order.currency]. *)
Definition shipping_price_of (sl : option OrderShippingLine.t) (currency : string)
    : ShippingPrice.t :=
  match sl with
  | Some sl =>
      let tax_sum := py_sum (map OrderTaxLine.amount (OrderShippingLine.tax_lines sl)) in
      {| ShippingPrice.currency := OrderShippingLine.currency sl;
         ShippingPrice.price := OrderShippingLine.original_price sl;
         ShippingPrice.price_net_after_discount :=
           (OrderShippingLine.discounted_price sl - tax_sum)%float;
         ShippingPrice.tax_amount := tax_sum;
         ShippingPrice.tax_rate :=
           match OrderShippingLine.tax_lines sl with
           | t :: _ => OrderTaxLine.rate t
           | [] => 0%float
           end;
         ShippingPrice.tax := tax_sum;
         ShippingPrice.discount :=
           (OrderShippingLine.original_price sl - OrderShippingLine.discounted_price sl)%float;
         ShippingPrice.discount_gross :=
           (OrderShippingLine.original_price sl - OrderShippingLine.discounted_price sl)%float |}
  | None =>
      {| ShippingPrice.currency := currency;
         ShippingPrice.price := 0%float;
         ShippingPrice.price_net_after_discount := 0%float;
         ShippingPrice.tax_amount := 0%float;
         ShippingPrice.tax_rate := 0%float;
         ShippingPrice.tax := 0%float;
         ShippingPrice.discount := 0%float;
         ShippingPrice.discount_gross := 0%float |}
  end.

(** Python's [s or default] on an optional string: [None] and [""] are falsy. *)
Definition py_or_str (s : option string) (default : string) : string :=
  match s with
  | Some v => if decide (v = "") then default else v
  | None => default
  end.

Definition map_order_to_everstox (order : Order.t) : result EverstoxOrder.t :=
  let shipping_address :=
    match Order.shipping_address order with
    | Some a => _map_shipping_address a
    | None => fallback_shipping_address
    end in
  let billing_address :=
    match Order.billing_address order with
    | Some a => _map_billing_address a
    | None => fallback_billing_address
    end in
  let sl := Order.shipping_line order in
  let shipment_options :=
    match sl with
    | Some sl => [ShipmentOption.mk None (OrderShippingLine.title sl)]
    | None => []
    end in
  let shipping_price := shipping_price_of sl (Order.currency order) in
  line_items ←
    (match Order.line_items order with
     | [] => item ← new_OrderItem 1 (Product.mk "TODO") [] [] []; Ok [item]
     | items => _map_order_items items shipment_options
     end);
  Ok {| EverstoxOrder.shop_instance_id := _SHOP_INSTANCE_ID;
        EverstoxOrder.order_number := Order.name order;
        EverstoxOrder.order_date := Order.created_at order;
        EverstoxOrder.customer_email := py_or_str (Order.email order) "unknown@example.com";
        EverstoxOrder.financial_status := Order.financial_status order;
        EverstoxOrder.shipping_address := shipping_address;
        EverstoxOrder.billing_address := billing_address;
        EverstoxOrder.shipping_price := shipping_price;
        EverstoxOrder.order_items := line_items;
        EverstoxOrder.payment_method_id := None;
        EverstoxOrder.payment_method_name := None;
        EverstoxOrder.requested_warehouse_id := None;
        EverstoxOrder.requested_warehouse_name := None;
        EverstoxOrder.requested_delivery_date := None;
        EverstoxOrder.order_priority := None;
        EverstoxOrder.picking_date := None;
        EverstoxOrder.print_return_label := false;
        EverstoxOrder.picking_hint := None;
        EverstoxOrder.packing_hint := None;
        EverstoxOrder.order_type := None;
        EverstoxOrder.custom_attributes :=
          [CustomAttribute.mk "shopify_order_id" (Order.id order)];
        EverstoxOrder.attachments := [] |}.

(** ** Raw GraphQL nodes, as selected by the query of [fetch_orders]

    A JSON object is a record; a key read with [.get(k)] whose value may be
    missing or null is an [option]; nested [edges]/[node] wrappers of
    connections are flattened to lists. *)

Module ShopMoney.
Record t := mk { amount : string; currencyCode : string }.
End ShopMoney.

Module RawTaxLine.
Record t := mk {
  rate : string;                 (** passed to [float(...)] *)
  priceSet : ShopMoney.t }.
End RawTaxLine.

Module RawShippingAddress.
Record t := mk {
  firstName : string;
  lastName : string;
  address1 : string;
  address2 : option string;
  city : string;
  province : option string;
  countryCode : string;
  zip : string;
  phone : option string }.
End RawShippingAddress.

Module RawBillingAddress.
Record t := mk {
  firstName : string;
  lastName : string;
  address1 : string;
  address2 : option string;
  city : string;
  province : option string;
  provinceCode : option string;
  country : option string;
  countryCode : string;
  zip : string;
  phone : option string;
  company : option string }.
End RawBillingAddress.

Module RawShippingLine.
Record t := mk {
  title : option string;
  code : option string;
  originalPriceSet : ShopMoney.t;
  discountedPriceSet : ShopMoney.t;
  taxLines : list RawTaxLine.t }.
End RawShippingLine.

Module RawLineItem.
Record t := mk {
  id : string;
  title : string;
  quantity : Z;
  unfulfilledQuantity : Z;
  sku : option string;
  originalUnitPriceSet : ShopMoney.t;
  taxLines : list RawTaxLine.t;
  discountAllocations : list ShopMoney.t;   (** [allocatedAmountSet.shopMoney] *)
  customAttributes : list Attribute.t }.
End RawLineItem.

Module RawNode.
Record t := mk {
  id : string;
  name : string;
  createdAt : string;
  displayFinancialStatus : string;
  displayFulfillmentStatus : option string;
  tags : list string;
  email : option string;
  shippingAddress : option RawShippingAddress.t;
  billingAddress : option RawBillingAddress.t;
  totalPriceSet : ShopMoney.t;
  shippingLine : option RawShippingLine.t;
  lineItems : list RawLineItem.t }.
End RawNode.

(** ** [OrderRepository._map] *)

Definition map_tax_line (t : RawTaxLine.t) : result OrderTaxLine.t :=
  rate ← py_float (RawTaxLine.rate t);
  amount ← py_float (ShopMoney.amount (RawTaxLine.priceSet t));
  Ok (OrderTaxLine.mk rate amount (ShopMoney.currencyCode (RawTaxLine.priceSet t))).

(** The element expression of the [line_items] comprehension; the keyword
    arguments are evaluated in order, then pydantic checks [sku: str]. *)
Definition map_line_item (item : RawLineItem.t) : result OrderLineItem.t :=
  price ← py_float (ShopMoney.amount (RawLineItem.originalUnitPriceSet item));
  tax_lines ← map_result map_tax_line (RawLineItem.taxLines item);
  discounts ← map_result (fun d => py_float (ShopMoney.amount d))
                (RawLineItem.discountAllocations item);
  match RawLineItem.sku item with
  | Some sku =>
      Ok {| OrderLineItem.id := RawLineItem.id item;
            OrderLineItem.title := RawLineItem.title item;
            OrderLineItem.quantity := RawLineItem.unfulfilledQuantity item;
            OrderLineItem.sku := sku;
            OrderLineItem.price := price;
            OrderLineItem.currency :=
              ShopMoney.currencyCode (RawLineItem.originalUnitPriceSet item);
            OrderLineItem.tax_lines := tax_lines;
            OrderLineItem.discount_total := py_sum discounts;
            OrderLineItem.custom_attributes := RawLineItem.customAttributes item |}
  | None => Err ValidationError
  end.

Definition map_shipping_line (raw_sl : RawShippingLine.t) : result OrderShippingLine.t :=
  let sl_orig := RawShippingLine.originalPriceSet raw_sl in
  let sl_disc := RawShippingLine.discountedPriceSet raw_sl in
  original_price ← py_float (ShopMoney.amount sl_orig);
  discounted_price ← py_float (ShopMoney.amount sl_disc);
  tax_lines ← map_result map_tax_line (RawShippingLine.taxLines raw_sl);
  Ok {| OrderShippingLine.title := RawShippingLine.title raw_sl;
        OrderShippingLine.code := RawShippingLine.code raw_sl;
        OrderShippingLine.original_price := original_price;
        OrderShippingLine.discounted_price := discounted_price;
        OrderShippingLine.currency := ShopMoney.currencyCode sl_orig;
        OrderShippingLine.tax_lines := tax_lines |}.

Definition map_shipping_address_raw (raw : RawShippingAddress.t) : OrderShippingAddress.t :=
  {| OrderShippingAddress.first_name := RawShippingAddress.firstName raw;
     OrderShippingAddress.last_name := RawShippingAddress.lastName raw;
     OrderShippingAddress.country_code := RawShippingAddress.countryCode raw;
     OrderShippingAddress.city := RawShippingAddress.city raw;
     OrderShippingAddress.zip := RawShippingAddress.zip raw;
     OrderShippingAddress.address_1 := RawShippingAddress.address1 raw;
     OrderShippingAddress.address_2 := RawShippingAddress.address2 raw;
     OrderShippingAddress.phone := RawShippingAddress.phone raw;
     OrderShippingAddress.province := RawShippingAddress.province raw |}.

Definition map_billing_address_raw (raw : RawBillingAddress.t) : OrderBillingAddress.t :=
  {| OrderBillingAddress.first_name := RawBillingAddress.firstName raw;
     OrderBillingAddress.last_name := RawBillingAddress.lastName raw;
     OrderBillingAddress.country_code := RawBillingAddress.countryCode raw;
     OrderBillingAddress.city := RawBillingAddress.city raw;
     OrderBillingAddress.zip := RawBillingAddress.zip raw;
     OrderBillingAddress.address_1 := RawBillingAddress.address1 raw;
     OrderBillingAddress.address_2 := RawBillingAddress.address2 raw;
     OrderBillingAddress.company := RawBillingAddress.company raw;
     OrderBillingAddress.phone := RawBillingAddress.phone raw;
     OrderBillingAddress.country := RawBillingAddress.country raw;
     OrderBillingAddress.province := RawBillingAddress.province raw;
     OrderBillingAddress.province_code := RawBillingAddress.provinceCode raw |}.

Definition _map (node : RawNode.t) : result Order.t :=
  let money := RawNode.totalPriceSet node in
  let shipping_address := option_map map_shipping_address_raw (RawNode.shippingAddress node) in
  let billing_address := option_map map_billing_address_raw (RawNode.billingAddress node) in
  line_items ← map_result map_line_item
                 (filter (fun item => 0 < RawLineItem.unfulfilledQuantity item)
                    (RawNode.lineItems node));
  shipping_line ←
    (match RawNode.shippingLine node with
     | Some raw_sl => sl ← map_shipping_line raw_sl; Ok (Some sl)
     | None => Ok None
     end);
  Ok {| Order.id := RawNode.id node;
        Order.name := RawNode.name node;
        Order.created_at := RawNode.createdAt node;
        Order.financial_status := RawNode.displayFinancialStatus node;
        Order.fulfillment_status := RawNode.displayFulfillmentStatus node;
        Order.total_price := ShopMoney.amount money;
        Order.currency := ShopMoney.currencyCode money;
        Order.tags := RawNode.tags node;
        Order.email := RawNode.email node;
        Order.shipping_address := shipping_address;
        Order.billing_address := billing_address;
        Order.shipping_line := shipping_line;
        Order.line_items := line_items |}.

(** ** Responses of [ShopifyGraphQLClient.execute]

    [data["extensions"]["cost"]] carries the cost report; every key of it is
    read with [.get] and a default, so each is an [option] ([None]: key
    absent).  JSON numbers are binary64 values; the integers Shopify reports
    are exact in binary64. *)

Module ThrottleStatus.
Record t := mk {
  maximumAvailable : option float;
  currentlyAvailable : option float;
  restoreRate : option float }.
End ThrottleStatus.

Module Cost.
Record t := mk {
  actualQueryCost : option float;
  throttleStatus : option ThrottleStatus.t }.
End Cost.

Module Extensions.
Record t := mk { cost : option Cost.t }.
End Extensions.

Module PageInfo.
Record t := mk { hasNextPage : bool; endCursor : option string }.
End PageInfo.

Module Page.
Record t := mk { pageInfo : PageInfo.t; edges : list RawNode.t }.
End Page.

Module Response.
Record t := mk {
  extensions : option Extensions.t;
  orders : Page.t }.               (** [data["data"]["orders"]] *)
End Response.

(** The [variables] dict sent with each request. *)
Module Variables.
Record t := mk { query : string; first : Z; after : option string }.
End Variables.

(** ** Effects of the fetch loop

    The loop talks to the client and sleeps; both are recorded in a trace.
    A computation ends with a value, a raised exception, or runs out of the
    fuel that bounds the [while True] loop. *)

Inductive event :=
  | Execute (variables : Variables.t)
  | Sleep (seconds : float).

Inductive outcome (A : Type) :=
  | Done (a : A)
  | Raised (e : py_error)
  | OutOfFuel.
Arguments Done {A} a.
Arguments Raised {A} e.
Arguments OutOfFuel {A}.

Definition M (A : Type) : Type := (outcome A * list event)%type.

Definition m_ret {A} (a : A) : M A := (Done a, []).

Definition m_bind {A B} (m : M A) (k : A -> M B) : M B :=
  match m with
  | (Done a, t1) => let '(o, t2) := k a in (o, t1 ++ t2)
  | (Raised e, t1) => (Raised e, t1)
  | (OutOfFuel, t1) => (OutOfFuel, t1)
  end.

Notation "x <- m ;; k" := (m_bind m (fun x => k))
  (at level 100, m at next level, right associativity).

Definition m_lift {A} (r : result A) : M A :=
  match r with Ok a => (Done a, []) | Err e => (Raised e, []) end.

(** The requests of a trace, in the order they were issued. *)
Definition requests (tr : list event) : list Variables.t :=
  omap (fun e => match e with Execute v => Some v | Sleep _ => None end) tr.

(** [time.sleep(d)]: rejects NaN and negative durations (ValueError) and
    infinite ones (OverflowError). *)
Definition time_sleep (d : float) : M unit :=
  if (PrimFloat.is_nan d || (d <? 0)%float)%bool then (Raised ValueError, [])
  else if PrimFloat.is_infinity d then (Raised OverflowError, [])
  else (Done tt, [Sleep d]).

(** ** [OrderRepository] *)

Definition PAGE_SIZE : Z := 50.
Definition COST_BUFFER : float := 50%float.

Definition query_string (since_iso : string) : string :=
  "financial_status:paid fulfillment_status:unshipped OR fulfillment_status:partial created_at:>="
    ++ since_iso.

(** [data.get("extensions", {}).get("cost", {})] and
    [cost.get("throttleStatus", {})]. *)
Definition response_cost (data : Response.t) : Cost.t :=
  match Response.extensions data with
  | Some ext => match Extensions.cost ext with Some c => c | None => Cost.mk None None end
  | None => Cost.mk None None
  end.

Definition response_throttle (data : Response.t) : ThrottleStatus.t :=
  match Cost.throttleStatus (response_cost data) with
  | Some th => th
  | None => ThrottleStatus.mk None None None
  end.

Definition actual_cost (data : Response.t) : float :=
  default 0%float (Cost.actualQueryCost (response_cost data)).
Definition currently_available (data : Response.t) : float :=
  default 1000%float (ThrottleStatus.currentlyAvailable (response_throttle data)).
Definition restore_rate (data : Response.t) : float :=
  default 50%float (ThrottleStatus.restoreRate (response_throttle data)).

(** The budget check after each response. *)
Definition throttle (data : Response.t) : M unit :=
  if (currently_available data <? actual_cost data + COST_BUFFER)%float then
    let points_needed :=
      ((actual_cost data + COST_BUFFER) - currently_available data)%float in
    if (restore_rate data =? 0)%float then (Raised ZeroDivisionError, [])
    else time_sleep (points_needed / restore_rate data)%float
  else m_ret tt.

Section Repository.
(** The GraphQL client passed to [OrderRepository(client)]. *)
Variable execute : Variables.t -> result Response.t.
(** The class attributes [BLACKLIST] and [WHITELIST]. *)
Variables BLACKLIST WHITELIST : gset string.

Definition client_execute (variables : Variables.t) : M Response.t :=
  (match execute variables with Ok r => Done r | Err e => Raised e end,
   [Execute variables]).

(** The two tag checks of the [for edge in page["edges"]] loop. *)
Definition is_kept (node : RawNode.t) : bool :=
  let order_tags := map py_lower (RawNode.tags node) in
  if existsb (fun tag => bool_decide (tag ∈ BLACKLIST)) order_tags then false
  else if (bool_decide (WHITELIST ≠ ∅)
           && negb (existsb (fun tag => bool_decide (tag ∈ WHITELIST)) order_tags))%bool
  then false
  else true.

(** The orders one page appends to [orders]. *)
Fixpoint page_orders (edges : list RawNode.t) : result (list Order.t) :=
  match edges with
  | [] => Ok []
  | node :: rest =>
      if is_kept node then o ← _map node; os ← page_orders rest; Ok (o :: os)
      else page_orders rest
  end.

(** The [while True] loop, from the request carrying [cursor] on. *)
Fixpoint fetch_loop (fuel : nat) (q : string) (cursor : option string)
    (orders : list Order.t) : M (list Order.t) :=
  match fuel with
  | O => (OutOfFuel, [])
  | S fuel' =>
      data <- client_execute (Variables.mk q PAGE_SIZE cursor) ;;
      _ <- throttle data ;;
      let page := Response.orders data in
      new <- m_lift (page_orders (Page.edges page)) ;;
      let page_info := Page.pageInfo page in
      if negb (PageInfo.hasNextPage page_info) then m_ret (orders ++ new)
      else fetch_loop fuel' q (PageInfo.endCursor page_info) (orders ++ new)
  end.

(** [fetch_orders(days)], with [since_iso] the formatted [now - days]. *)
Definition fetch_orders (fuel : nat) (since_iso : string) : M (list Order.t) :=
  fetch_loop fuel (query_string since_iso) None [].
End Repository.

(** ** The repository's tests ([tests/test_orders.py]) on the model *)

Module Tests.

Definition make_node (order_id name : string) (tags : list string) : RawNode.t :=
  {| RawNode.id := order_id; RawNode.name := name;
     RawNode.createdAt := "2025-02-01T10:00:00Z";
     RawNode.displayFinancialStatus := "PAID";
     RawNode.displayFulfillmentStatus := Some "UNFULFILLED";
     RawNode.tags := tags;
     RawNode.email := Some "customer@example.com";
     RawNode.shippingAddress := None; RawNode.billingAddress := None;
     RawNode.totalPriceSet := ShopMoney.mk "99.99" "EUR";
     RawNode.shippingLine :=
       Some (RawShippingLine.mk (Some "Standard Shipping") (Some "standard")
               (ShopMoney.mk "5.00" "EUR") (ShopMoney.mk "5.00" "EUR") []);
     RawNode.lineItems := [] |}.

Definition page_response (extensions : option Extensions.t) (has_next : bool)
    (end_cursor : option string) (nodes : list RawNode.t) : Response.t :=
  Response.mk extensions (Page.mk (PageInfo.mk has_next end_cursor) nodes).

Definition single_page (nodes : list RawNode.t) : Variables.t -> result Response.t :=
  fun _ => Ok (page_response None false None nodes).

Definition since : string := "2025-06-15T12:00:00Z".

Definition names (r : M (list Order.t)) : option (list string) :=
  match r with (Done os, _) => Some (map Order.name os) | _ => None end.

Definition page1 : Response.t :=
  page_response None true (Some "cursor-abc") [make_node "gid://shopify/Order/1" "#1001" []].
Definition page2 : Response.t :=
  page_response None false None [make_node "gid://shopify/Order/2" "#1002" []].

Definition two_pages (v : Variables.t) : result Response.t :=
  match Variables.after v with
  | None => Ok page1
  | Some _ => Ok page2
  end.

Definition two_pages_orders : list (list Order.t) :=
  match page_orders ∅ ∅ (Page.edges (Response.orders page1)),
        page_orders ∅ ∅ (Page.edges (Response.orders page2)) with
  | Ok a, Ok b => [a; b]
  | _, _ => []
  end.

(** A first page reporting [currentlyAvailable = available],
    [actualQueryCost = 10], [restoreRate = 50]; then a last page with no
    cost report. *)
Definition budget_extensions (available : float) : Extensions.t :=
  Extensions.mk (Some (Cost.mk (Some 10%float)
    (Some (ThrottleStatus.mk (Some 1000%float) (Some available) (Some 50%float))))).

Definition budget_pages (available : float) (v : Variables.t) : result Response.t :=
  match Variables.after v with
  | None => Ok (page_response (Some (budget_extensions available)) true (Some "c1") [])
  | Some _ => Ok (page_response None false None [])
  end.

(** The first page of [budget_pages 50], then a request that raises. *)
Definition budget_then_error (v : Variables.t) : result Response.t :=
  match Variables.after v with
  | None => budget_pages 50 v
  | Some _ => Err HTTPStatusError
  end.

(** [_make_order] of the mapper tests. *)
Definition make_order (email : option string) (sl : option OrderShippingLine.t)
    (items : list OrderLineItem.t) : Order.t :=
  Order.mk "gid://shopify/Order/1" "#1001" "2025-02-01T10:00:00+00:00" "PAID"
    (Some "UNFULFILLED") "99.99" "EUR" [] email None None sl items.

Definition spec_shipping_line : OrderShippingLine.t :=
  OrderShippingLine.mk (Some "Express") None 10.00%float 8.00%float "EUR"
    [OrderTaxLine.mk 0.19%float 1.52%float "EUR"].

(** A line item whose custom attribute has a null value. *)
Definition null_attribute_item : OrderLineItem.t :=
  OrderLineItem.mk "1" "Widget" 1 "W-01" 10%float "EUR" [] 0%float
    [Attribute.mk "engraving" None].

(** [test_mapper_price_set_per_line_item]'s line item. *)
Definition widget_item : OrderLineItem.t :=
  OrderLineItem.mk "1" "Widget" 2 "W-01" 10%float "EUR"
    [OrderTaxLine.mk 0.19%float 1.90%float "EUR"] 2%float
    [Attribute.mk "engraving" (Some "Hello")].

(** A node with a fulfilled and a partly fulfilled line item. *)
Definition raw_item (item_id : string) (quantity unfulfilled : Z) : RawLineItem.t :=
  RawLineItem.mk item_id "Test Product" quantity unfulfilled (Some "SKU-001")
    (ShopMoney.mk "10.00" "EUR")
    [RawTaxLine.mk "0.19" (ShopMoney.mk "1.90" "EUR")] [] [].

Definition partial_node : RawNode.t :=
  let n := make_node "gid://shopify/Order/1" "#1001" [] in
  {| RawNode.id := RawNode.id n; RawNode.name := RawNode.name n;
     RawNode.createdAt := RawNode.createdAt n;
     RawNode.displayFinancialStatus := RawNode.displayFinancialStatus n;
     RawNode.displayFulfillmentStatus := RawNode.displayFulfillmentStatus n;
     RawNode.tags := RawNode.tags n; RawNode.email := RawNode.email n;
     RawNode.shippingAddress := None; RawNode.billingAddress := None;
     RawNode.totalPriceSet := RawNode.totalPriceSet n;
     RawNode.shippingLine := RawNode.shippingLine n;
     RawNode.lineItems := [raw_item "gid://shopify/LineItem/1" 1 0;
                           raw_item "gid://shopify/LineItem/2" 3 2] |}.

End Tests.

(** ** Properties stated in the words of the specification *)

(** The spec's throttle rule for one page response: sleep
    [(cost + buffer - remaining) / refill_rate] seconds when
    [remaining < cost + buffer], else not at all. *)
Definition spec_pause (r : Response.t) : list event :=
  if (currently_available r <? actual_cost r + COST_BUFFER)%float
  then [Sleep (((actual_cost r + COST_BUFFER) - currently_available r) / restore_rate r)%float]
  else [].

(** The spec's filter: no lowercased tag is in the deny-list, and the
    allow-list is empty or some lowercased tag is in it. *)
Definition tag_admitted (BLACKLIST WHITELIST : gset string) (node : RawNode.t) : Prop :=
  let tags := map py_lower (RawNode.tags node) in
  ¬ Exists (fun t => t ∈ BLACKLIST) tags /\
  (WHITELIST = ∅ \/ Exists (fun t => t ∈ WHITELIST) tags).

Global Instance tag_admitted_dec BLACKLIST WHITELIST node :
  Decision (tag_admitted BLACKLIST WHITELIST node).
Proof. unfold tag_admitted. apply _. Defined.

(** [serves execute q c rs]: asked with cursor [c] (and query [q]), the
    provider answers the pages [rs] in turn, each page's [endCursor] being
    the cursor of the next request, the last page having [hasNextPage]
    false. *)
Inductive serves (execute : Variables.t -> result Response.t) (q : string)
    : option string -> list Response.t -> Prop :=
  | serves_last c r :
      execute (Variables.mk q PAGE_SIZE c) = Ok r ->
      PageInfo.hasNextPage (Page.pageInfo (Response.orders r)) = false ->
      serves execute q c [r]
  | serves_next c r rs :
      execute (Variables.mk q PAGE_SIZE c) = Ok r ->
      PageInfo.hasNextPage (Page.pageInfo (Response.orders r)) = true ->
      serves execute q (PageInfo.endCursor (Page.pageInfo (Response.orders r))) rs ->
      serves execute q c (r :: rs).

Definition end_cursor (r : Response.t) : option string :=
  PageInfo.endCursor (Page.pageInfo (Response.orders r)).

(** The spec's per-item mapping: quantity, SKU and key/value attributes
    carried over; one price breakdown with net-after-discount
    [price - discount_total], tax amount (and tax) the sum of the tax line
    amounts, tax rate the first tax line's rate or 0, discount and
    discount_gross the discount total. *)
Definition item_carried (item : OrderLineItem.t) (out : OrderItem.t) : Prop :=
  let tax_sum := py_sum (map OrderTaxLine.amount (OrderLineItem.tax_lines item)) in
  OrderItem.quantity out = OrderLineItem.quantity item /\
  Product.sku (OrderItem.product out) = OrderLineItem.sku item /\
  map (fun ca => (CustomAttribute.attribute_key ca, Some (CustomAttribute.attribute_value ca)))
      (OrderItem.custom_attributes out)
    = map (fun a => (Attribute.key a, Attribute.value a))
          (OrderLineItem.custom_attributes item) /\
  exists ps, OrderItem.price_set out = [ps] /\
    PriceSet.price_net_after_discount ps
      = (OrderLineItem.price item - OrderLineItem.discount_total item)%float /\
    PriceSet.tax_amount ps = tax_sum /\
    PriceSet.tax ps = tax_sum /\
    PriceSet.tax_rate ps = match OrderLineItem.tax_lines item with
                           | t :: _ => OrderTaxLine.rate t
                           | [] => 0%float
                           end /\
    PriceSet.discount ps = OrderLineItem.discount_total item /\
    PriceSet.discount_gross ps = OrderLineItem.discount_total item.

(** The spec's field-for-field address mapping: every field of the input
    is copied unchanged to the same-named output field, the other output
    fields are absent. *)
Definition shipping_address_copied (a : OrderShippingAddress.t) (sa : ShippingAddress.t) : Prop :=
  ShippingAddress.first_name sa = OrderShippingAddress.first_name a /\
  ShippingAddress.last_name sa = OrderShippingAddress.last_name a /\
  ShippingAddress.country_code sa = OrderShippingAddress.country_code a /\
  ShippingAddress.city sa = OrderShippingAddress.city a /\
  ShippingAddress.zip sa = OrderShippingAddress.zip a /\
  ShippingAddress.address_1 sa = OrderShippingAddress.address_1 a /\
  ShippingAddress.address_2 sa = OrderShippingAddress.address_2 a /\
  ShippingAddress.phone sa = OrderShippingAddress.phone a /\
  ShippingAddress.province sa = OrderShippingAddress.province a /\
  ShippingAddress.company sa = None /\ ShippingAddress.title sa = None /\
  ShippingAddress.country sa = None /\ ShippingAddress.province_code sa = None.

Definition billing_address_copied (a : OrderBillingAddress.t) (ba : BillingAddress.t) : Prop :=
  BillingAddress.first_name ba = OrderBillingAddress.first_name a /\
  BillingAddress.last_name ba = OrderBillingAddress.last_name a /\
  BillingAddress.country_code ba = OrderBillingAddress.country_code a /\
  BillingAddress.city ba = OrderBillingAddress.city a /\
  BillingAddress.zip ba = OrderBillingAddress.zip a /\
  BillingAddress.address_1 ba = OrderBillingAddress.address_1 a /\
  BillingAddress.address_2 ba = OrderBillingAddress.address_2 a /\
  BillingAddress.company ba = OrderBillingAddress.company a /\
  BillingAddress.phone ba = OrderBillingAddress.phone a /\
  BillingAddress.country ba = OrderBillingAddress.country a /\
  BillingAddress.province ba = OrderBillingAddress.province a /\
  BillingAddress.province_code ba = OrderBillingAddress.province_code a /\
  BillingAddress.title ba = None /\ BillingAddress.VAT_number ba = None.

(** The placeholder: sentinel names, city, street and postal code, default
    country code. *)
Definition shipping_placeholder (sa : ShippingAddress.t) : Prop :=
  ShippingAddress.first_name sa = "TODO" /\ ShippingAddress.last_name sa = "TODO" /\
  ShippingAddress.city sa = "TODO" /\ ShippingAddress.address_1 sa = "TODO" /\
  ShippingAddress.zip sa = "00000" /\ ShippingAddress.country_code sa = "DE".

Definition billing_placeholder (ba : BillingAddress.t) : Prop :=
  BillingAddress.first_name ba = "TODO" /\ BillingAddress.last_name ba = "TODO" /\
  BillingAddress.city ba = "TODO" /\ BillingAddress.address_1 ba = "TODO" /\
  BillingAddress.zip ba = "00000" /\ BillingAddress.country_code ba = "DE".

(** A line item the outbound [OrderItem] accepts: [quantity >= 1] and
    every custom attribute has a string value. *)
Definition item_valid (item : OrderLineItem.t) : Prop :=
  1 <= OrderLineItem.quantity item /\
  Forall (fun a => Attribute.value a <> None) (OrderLineItem.custom_attributes item).

(** * Further code of the repository

    The report writer, the two HTTP clients and the entry point's
    [Executor], over the definitions above. *)

(** ** Python string operations *)

(** The double quote (character 34) and the newline (character 10). *)
Definition DQ : string := String (Ascii.ascii_of_nat 34) EmptyString.
Definition NL : string := String (Ascii.ascii_of_nat 10) EmptyString.

(** [s.replace(old, new)] for a one-character [old]: every occurrence, left
    to right. *)
Fixpoint py_replace_char (old : Ascii.ascii) (new s : string) : string :=
  match s with
  | EmptyString => EmptyString
  | String c s' =>
      (if decide (c = old) then new else String c EmptyString) ++ py_replace_char old new s'
  end.

(** [html.escape(s)] with [quote=True], as CPython's [html] module writes
    it: [&] first, then [<], [>], the double quote and the single quote. *)
Definition html_escape (s : string) : string :=
  let s := py_replace_char "&"%char "&amp;" s in
  let s := py_replace_char "<"%char "&lt;" s in
  let s := py_replace_char ">"%char "&gt;" s in
  let s := py_replace_char (Ascii.ascii_of_nat 34) "&quot;" s in
  py_replace_char "'"%char "&#x27;" s.

(** [s.rstrip(c)]: drops every trailing [c]. *)
Fixpoint py_rstrip (c : Ascii.ascii) (s : string) : string :=
  match s with
  | EmptyString => EmptyString
  | String c' s' =>
      let r := py_rstrip c s' in
      if decide (c' = c /\ r = EmptyString) then EmptyString else String c' r
  end.

(** [str(n)] for a non-negative [int]: its decimal digits, most significant
    first; [S n] steps are more than enough. *)
Definition digit_char (d : N) : Ascii.ascii := Ascii.ascii_of_N (48 + d)%N.

Fixpoint decimal_go (fuel : nat) (n : N) (acc : string) : string :=
  match fuel with
  | O => acc
  | S fuel' =>
      let acc' := String (digit_char (n mod 10)%N) acc in
      if decide (n < 10)%N then acc' else decimal_go fuel' (n / 10)%N acc'
  end.

Definition py_str_nat (n : nat) : string := decimal_go (S n) (N.of_nat n) EmptyString.

(** [s.count(c)] for one character. *)
Fixpoint count_char (c : Ascii.ascii) (s : string) : nat :=
  match s with
  | EmptyString => 0%nat
  | String c' s' => ((if decide (c' = c) then 1 else 0) + count_char c s')%nat
  end.

(** ** The run report: [src/application/html_report.py] *)

Definition _CSS : string :=
  "
  * { box-sizing: border-box; margin: 0; padding: 0; }
  body { font-family: system-ui, sans-serif; background: #f4f6f9; color: #1a1a2e; padding: 2rem; }
  h1 { font-size: 1.6rem; margin-bottom: 0.25rem; }
  .meta { color: #666; font-size: 0.85rem; margin-bottom: 2rem; }
  h2 { font-size: 1.1rem; margin-bottom: 0.75rem; color: #444; }

  .cards { display: flex; gap: 1rem; margin-bottom: 2rem; }
  .card { background: #fff; border-radius: 8px; padding: 1.25rem 1.75rem;
          box-shadow: 0 1px 4px rgba(0,0,0,.08); min-width: 140px; }
  .card .value { font-size: 2rem; font-weight: 700; color: #4f46e5; }
  .card .label { font-size: 0.8rem; color: #888; margin-top: 0.2rem; }

  table { width: 100%; border-collapse: collapse; background: #fff;
          border-radius: 8px; overflow: hidden;
          box-shadow: 0 1px 4px rgba(0,0,0,.08); margin-bottom: 2rem; }
  th { background: #4f46e5; color: #fff; text-align: left;
       padding: 0.65rem 1rem; font-size: 0.8rem; text-transform: uppercase;
       letter-spacing: .04em; }
  td { padding: 0.6rem 1rem; font-size: 0.88rem; border-bottom: 1px solid #f0f0f0; }
  tr:last-child td { border-bottom: none; }
  tr:hover td { background: #f9f9ff; }

  .badge { display: inline-block; padding: 2px 8px; border-radius: 99px;
           font-size: 0.75rem; font-weight: 600; }
  .badge-paid   { background: #d1fae5; color: #065f46; }
  .badge-unfulfilled { background: #fee2e2; color: #991b1b; }
  .badge-partial { background: #fef3c7; color: #92400e; }

  details { background: #fff; border-radius: 8px;
            box-shadow: 0 1px 4px rgba(0,0,0,.08);
            margin-bottom: 0.75rem; overflow: hidden; }
  summary { cursor: pointer; padding: 0.75rem 1rem;
            font-size: 0.9rem; font-weight: 600;
            display: flex; align-items: center; gap: 0.5rem;
            list-style: none; user-select: none; }
  summary::-webkit-details-marker { display: none; }
  summary::before { content: " ++ DQ ++ "▶" ++ DQ ++ "; font-size: 0.7rem; color: #4f46e5;
                    transition: transform .15s; display: inline-block; }
  details[open] summary::before { transform: rotate(90deg); }
  summary:hover { background: #f9f9ff; }
  .order-num { color: #4f46e5; }
  pre { padding: 1rem 1.25rem; font-size: 0.78rem; overflow-x: auto;
        background: #1e1e2e; color: #cdd6f4; line-height: 1.5; }
".

(** [_badge(text, kind)]: [not text] holds for [None] and [""]; [kind] is
    not read. *)
Definition _badge (text : option string) (kind : string) : string :=
  match text with
  | None | Some EmptyString => "<span style='color:#aaa'>—</span>"
  | Some t =>
      let name := ("badge-" ++ py_lower t)%string in
      let cls := if decide (name ∈ ["badge-paid"; "badge-unfulfilled"; "badge-partial"])
                 then name else "badge" in
      "<span class=" ++ DQ ++ "badge " ++ cls ++ DQ ++ ">" ++ html_escape t ++ "</span>"
  end.

Section Report.
(** [str(o.created_at)]: Python's rendering of the [datetime] pydantic parsed
    from the [createdAt] string. *)
Variable str_datetime : string -> string.
(** [json.dumps(everstox_order.model_dump(mode='json', exclude_none=True),
    indent=2, ensure_ascii=False)]. *)
Variable json_payload : EverstoxOrder.t -> string.
(** [datetime.now(UTC).strftime(...)] in [build_html_report]. *)
Variable generated_at : string.

(** One row of the [rows] generator of [_orders_table]. *)
Definition order_row (o : Order.t) : string :=
  "<tr>
          <td><strong>" ++
  html_escape (Order.name o) ++
  "</strong></td>
          <td>" ++
  _badge (Some (Order.financial_status o)) "paid" ++
  "</td>
          <td>" ++
  _badge (Order.fulfillment_status o) "unfulfilled" ++
  "</td>
          <td>" ++
  html_escape (Order.total_price o) ++
  " " ++
  html_escape (Order.currency o) ++
  "</td>
          <td>" ++
  html_escape (str_datetime (Order.created_at o)) ++
  "</td>
        </tr>".

Definition _orders_table (orders : list Order.t) : string :=
  let rows := String.concat "" (map order_row orders) in
  "
    <table>
      <thead><tr>
        <th>Order</th><th>Financial Status</th>
        <th>Fulfillment Status</th><th>Total</th><th>Created At</th>
      </tr></thead>
      <tbody>" ++
  rows ++
  "</tbody>
    </table>".

(** One element of [blocks] in [_everstox_details]. *)
Definition everstox_block (pair : Order.t * EverstoxOrder.t) : string :=
  let (shopify_order, everstox_order) := pair in
  let payload := json_payload everstox_order in
  ("
        <details>
          <summary>
            <span class=" ++ DQ ++ "order-num" ++ DQ ++ ">") ++
  html_escape (Order.name shopify_order) ++
  "</span>
            &nbsp;·&nbsp;" ++
  html_escape (EverstoxOrder.order_number everstox_order) ++
  "
            &nbsp;·&nbsp;" ++
  html_escape (Order.financial_status shopify_order) ++
  "
          </summary>
          <pre>" ++
  html_escape payload ++
  "</pre>
        </details>".

(** [_everstox_details(pairs)]: the blocks joined with newlines. *)
Definition _everstox_details (pairs : list (Order.t * EverstoxOrder.t)) : string :=
  String.concat NL (map everstox_block pairs).

Definition build_html_report (orders : list Order.t)
    (pairs : list (Order.t * EverstoxOrder.t)) : string :=
  ("<!DOCTYPE html>
<html lang=" ++ DQ ++ "en" ++ DQ ++ ">
<head>
  <meta charset=" ++ DQ ++ "UTF-8" ++ DQ ++ ">
  <meta name=" ++ DQ ++ "viewport" ++ DQ ++ " content=" ++ DQ ++ "width=device-width, initial-scale=1.0" ++ DQ ++ ">
  <title>Shopify → Everstox Report</title>
  <style>") ++
  _CSS ++
  ("</style>
</head>
<body>
  <h1>Shopify → Everstox Report</h1>
  <p class=" ++ DQ ++ "meta" ++ DQ ++ ">Generated at ") ++
  generated_at ++
  ("</p>

  <div class=" ++ DQ ++ "cards" ++ DQ ++ ">
    <div class=" ++ DQ ++ "card" ++ DQ ++ ">
      <div class=" ++ DQ ++ "value" ++ DQ ++ ">") ++
  py_str_nat (length orders) ++
  ("</div>
      <div class=" ++ DQ ++ "label" ++ DQ ++ ">Orders loaded</div>
    </div>
    <div class=" ++ DQ ++ "card" ++ DQ ++ ">
      <div class=" ++ DQ ++ "value" ++ DQ ++ ">") ++
  py_str_nat (length pairs) ++
  ("</div>
      <div class=" ++ DQ ++ "label" ++ DQ ++ ">Sent to Everstox</div>
    </div>
  </div>

  <h2>Loaded Orders</h2>
  ") ++
  _orders_table orders ++
  "

  <h2>Everstox Payloads</h2>
  " ++
  _everstox_details pairs ++
  "
</body>
</html>".

End Report.

(** ** JSON values, HTTP responses and the error log *)

(** A value [json.loads] returns. *)
Inductive json :=
  | JNull
  | JBool (b : bool)
  | JNum (x : float)
  | JStr (s : string)
  | JArr (xs : list json)
  | JObj (kvs : list (string * json)).

(** [d.get(k)] on the dict [json.loads] builds from an object: a repeated
    key keeps its last value. *)
Definition dict_get (k : string) (kvs : list (string * json)) : option json :=
  fold_left (fun acc kv => if decide (kv.1 = k) then Some kv.2 else acc) kvs None.

(** Python truthiness of a JSON value: [None], [False], zero, the empty
    string, the empty list and the empty object are falsy. *)
Definition py_truthy (v : json) : bool :=
  match v with
  | JNull => false
  | JBool b => b
  | JNum x => negb (x =? 0)%float
  | JStr s => negb (bool_decide (s = EmptyString))
  | JArr xs => match xs with [] => false | _ => true end
  | JObj kvs => match kvs with [] => false | _ => true end
  end.

(** The exceptions of the HTTP layer: those of [py_error], [AttributeError]
    ([.get] on a JSON body that is not an object), [httpx.RequestError] (a
    request that got no response) and [EverstoxAPIError], whose message is
    built from the status code and the response text. *)
Inductive exc :=
  | PyErr (e : py_error)
  | AttributeError
  | PostError (name : string)    (** raised by the [httpx] POST call itself, by class
                                     name: [ConnectError], [InvalidURL], ... *)
  | EverstoxAPIError (status_code : Z) (text : string).

Inductive xresult (A : Type) :=
  | XOk (a : A)
  | XErr (e : exc).
Arguments XOk {A} a.
Arguments XErr {A} e.

(** An [httpx.Response]: [content] is [None] when the body is not JSON. *)
Module HttpResponse.
Record t := mk {
  status_code : Z;
  text : string;
  content : option json }.
End HttpResponse.

(** [response.is_success]: a 2xx status; [raise_for_status()] raises
    [HTTPStatusError] exactly when it fails. *)
Definition is_success (r : HttpResponse.t) : bool :=
  (200 <=? HttpResponse.status_code r) && (HttpResponse.status_code r <=? 299).

(** The outcome of an [httpx] POST call: the response, or the exception the
    call raised ([httpx.RequestError] and its subclasses for transport
    failures, [httpx.InvalidURL] for a malformed URL, ...), by class name. *)
Inductive post_result :=
  | Posted (response : HttpResponse.t)
  | PostRaised (name : string).

(** [response.json()]: a body that is not JSON raises [JSONDecodeError], a
    [ValueError]. *)
Definition response_json (r : HttpResponse.t) : xresult json :=
  match HttpResponse.content r with
  | Some j => XOk j
  | None => XErr (PyErr ValueError)
  end.

(** The [logger.error] line of [log_errors]: the qualified name of the
    function, and the exception (its type name and message). *)
Inductive log_entry :=
  | LogError (qualname : string) (error : exc).

(** [@log_errors] ([src/shared/decorators.py]) around a call with outcome
    [r]: a result is returned as is; an exception is logged once and
    re-raised. *)
Definition log_errors {A} (qualname : string) (r : xresult A) : xresult A * list log_entry :=
  match r with
  | XOk a => (XOk a, [])
  | XErr e => (XErr e, [LogError qualname e])
  end.

(** ** [src/infrastructure/shopify_client.py] *)

Module ShopifyGraphQLClient.
Record t := mk {
  _endpoint : string;
  _headers : list (string * string) }.

Definition new (shop_name access_token api_version : string) : t :=
  mk ("https://" ++ shop_name ++ ".myshopify.com/admin/api/" ++ api_version ++ "/graphql.json")
     [("X-Shopify-Access-Token", access_token); ("Content-Type", "application/json")].

Section WithHttp.
(** [httpx.post(url, headers=..., json=...)]: a response, or the exception
    the call raised. *)
Variable httpx_post : string -> list (string * string) -> json -> post_result.

(** [payload]: the query, and the variables when the dict is truthy. *)
Definition payload (query : string) (variables : option (list (string * json)))
    : list (string * json) :=
  match variables with
  | Some ((_ :: _) as vs) => [("query", JStr query); ("variables", JObj vs)]
  | _ => [("query", JStr query)]
  end.

Definition execute_body (self : t) (query : string)
    (variables : option (list (string * json))) : xresult json :=
  match httpx_post (_endpoint self) (_headers self) (JObj (payload query variables)) with
  | PostRaised name => XErr (PostError name)
  | Posted response =>
      if negb (is_success response) then XErr (PyErr HTTPStatusError)
      else
        match response_json response with
        | XErr e => XErr e
        | XOk body =>
            match body with
            | JObj kvs =>
                match dict_get "errors" kvs with
                | Some errors =>
                    if py_truthy errors then XErr (PyErr ShopifyGraphQLError) else XOk body
                | None => XOk body
                end
            | _ => XErr AttributeError
            end
        end
  end.

(** [execute], decorated with [@log_errors]. *)
Definition execute (self : t) (query : string) (variables : option (list (string * json)))
    : xresult json * list log_entry :=
  log_errors "ShopifyGraphQLClient.execute" (execute_body self query variables).
End WithHttp.
End ShopifyGraphQLClient.

(** ** [src/application/everstox_service.py] *)

Module EverstoxService.
Definition CREATE_ORDER_PATH : string := "/fulfillment/api/v1/orders/".

Record t := mk {
  _endpoint : string;
  _headers : list (string * string) }.

Definition new (base_url api_key : string) : t :=
  mk (py_rstrip "/"%char base_url ++ CREATE_ORDER_PATH)
     [("Authorization", ("Token " ++ api_key)%string); ("Content-Type", "application/json")].

Section WithClient.
(** [self._client.post(url, headers=..., json=...)]: a response, or the
    exception the call raised. *)
Variable client_post : string -> list (string * string) -> json -> post_result.
(** [order.model_dump(mode='json', exclude_none=True)] (pydantic). *)
Variable model_dump : EverstoxOrder.t -> json.

Definition send_order_body (self : t) (order : EverstoxOrder.t) : xresult json :=
  let payload := model_dump order in
  match client_post (_endpoint self) (_headers self) payload with
  | PostRaised name => XErr (PostError name)
  | Posted response =>
      if negb (is_success response) then
        XErr (EverstoxAPIError (HttpResponse.status_code response) (HttpResponse.text response))
      else response_json response
  end.

(** [send_order], decorated with [@log_errors]. *)
Definition send_order (self : t) (order : EverstoxOrder.t) : xresult json * list log_entry :=
  log_errors "EverstoxService.send_order" (send_order_body self order).
End WithClient.
End EverstoxService.

(** ** [src/entrypoints/executor.py] *)

(** The calls [Executor.run] makes to its services, in order. *)
Inductive run_event :=
  | SendOrder (order : EverstoxOrder.t)
  | GenerateReport (orders : list Order.t) (pairs : list (Order.t * EverstoxOrder.t)).

Module Executor.
Section WithServices.
(** [IOrderService.get_unfulfilled_paid_orders(days=...)]. *)
Variable get_unfulfilled_paid_orders : Z -> xresult (list Order.t).
(** [IEverstoxService.send_order]. *)
Variable send_order : EverstoxOrder.t -> xresult json.
(** [IReportService.generate]. *)
Variable generate : list Order.t -> list (Order.t * EverstoxOrder.t) -> xresult string.

(** The [for order in orders] loop that maps, sends and appends to [sent]. *)
Fixpoint send_all (orders : list Order.t) (sent : list (Order.t * EverstoxOrder.t))
    : xresult (list (Order.t * EverstoxOrder.t)) * list run_event :=
  match orders with
  | [] => (XOk sent, [])
  | order :: rest =>
      match map_order_to_everstox order with
      | Err e => (XErr (PyErr e), [])
      | Ok everstox_order =>
          match send_order everstox_order with
          | XErr e => (XErr e, [SendOrder everstox_order])
          | XOk _ =>
              let '(r, t) := send_all rest (sent ++ [(order, everstox_order)]) in
              (r, SendOrder everstox_order :: t)
          end
      end
  end.

Definition run (days : Z) : xresult unit * list run_event :=
  match get_unfulfilled_paid_orders days with
  | XErr e => (XErr e, [])
  | XOk orders =>
      let '(r, t) := send_all orders [] in
      match r with
      | XErr e => (XErr e, t)
      | XOk sent =>
          match generate orders sent with
          | XErr e => (XErr e, t ++ [GenerateReport orders sent])
          | XOk _ => (XOk tt, t ++ [GenerateReport orders sent])
          end
      end
  end.
End WithServices.
End Executor.

(** ** Properties' vocabulary *)

(** A node with its line items replaced. *)
Definition with_lineItems (node : RawNode.t) (items : list RawLineItem.t) : RawNode.t :=
  {| RawNode.id := RawNode.id node; RawNode.name := RawNode.name node;
     RawNode.createdAt := RawNode.createdAt node;
     RawNode.displayFinancialStatus := RawNode.displayFinancialStatus node;
     RawNode.displayFulfillmentStatus := RawNode.displayFulfillmentStatus node;
     RawNode.tags := RawNode.tags node; RawNode.email := RawNode.email node;
     RawNode.shippingAddress := RawNode.shippingAddress node;
     RawNode.billingAddress := RawNode.billingAddress node;
     RawNode.totalPriceSet := RawNode.totalPriceSet node;
     RawNode.shippingLine := RawNode.shippingLine node;
     RawNode.lineItems := items |}.

(** Reading the five entities of [html_escape] back as their characters. *)
Fixpoint unescape_entities (s : string) : string :=
  match s with
  | String "&" (String "a" (String "m" (String "p" (String ";" r)))) =>
      String "&" (unescape_entities r)
  | String "&" (String "l" (String "t" (String ";" r))) => String "<" (unescape_entities r)
  | String "&" (String "g" (String "t" (String ";" r))) => String ">" (unescape_entities r)
  | String "&" (String "q" (String "u" (String "o" (String "t" (String ";" r))))) =>
      String (Ascii.ascii_of_nat 34) (unescape_entities r)
  | String "&" (String "#" (String "x" (String "2" (String "7" (String ";" r))))) =>
      String "'" (unescape_entities r)
  | String c r => String c (unescape_entities r)
  | EmptyString => EmptyString
  end.

(** The shipment options [map_order_to_everstox] gives every item. *)
Definition shipment_options_of (o : Order.t) : list ShipmentOption.t :=
  match Order.shipping_line o with
  | Some sl => [ShipmentOption.mk None (OrderShippingLine.title sl)]
  | None => []
  end.


(** * Proofs *)

Module TestRuns.
Import Tests.
(** test_fetch_orders_returns_orders *)
Example returns_orders :
  names (fetch_orders (single_page [make_node "gid://shopify/Order/1" "#1001" [];
                                    make_node "gid://shopify/Order/2" "#1002" []])
           ∅ ∅ 10%nat since) = Some ["#1001"; "#1002"].
Proof. reflexivity. Qed.

(** test_fetch_orders_paginates_correctly *)
Example paginates :
  names (fetch_orders two_pages ∅ ∅ 10%nat since) = Some ["#1001"; "#1002"] /\
  map Variables.after (requests (snd (fetch_orders two_pages ∅ ∅ 10%nat since)))
    = [None; Some "cursor-abc"].
Proof. split; reflexivity. Qed.

(** Tag filtering: deny-list wins over allow-list. *)
Example deny_wins :
  names (fetch_orders (single_page [make_node "a" "#1" ["VIP"; "Test"];
                                    make_node "b" "#2" ["vip"];
                                    make_node "c" "#3" ["other"]])
           {["test"]} {["vip"]} 10%nat since) = Some ["#2"].
Proof. vm_compute. reflexivity. Qed.

End TestRuns.

(** ** The fetch loop *)

Lemma m_bind_Done {A B} (m : M A) (k : A -> M B) b t :
  m_bind m k = (Done b, t) ->
  exists a t1 t2, m = (Done a, t1) /\ k a = (Done b, t2) /\ t = t1 ++ t2.
Proof.
  destruct m as [[a|e|] t1]; simpl; try discriminate.
  destruct (k a) as [o t2] eqn:E. intros H. injection H as -> <-.
  eauto 6.
Qed.

Lemma client_execute_Done execute v r t :
  client_execute execute v = (Done r, t) -> execute v = Ok r /\ t = [Execute v].
Proof.
  unfold client_execute. destruct (execute v); intros H; inversion H; auto.
Qed.

Lemma m_lift_Done {A} (x : result A) a t :
  m_lift x = (Done a, t) -> x = Ok a /\ t = [].
Proof. destruct x; simpl; intros H; inversion H; auto. Qed.

(** A throttle step that does not raise sleeps exactly as the spec says. *)
Lemma throttle_Done r u t :
  throttle r = (Done u, t) -> t = spec_pause r.
Proof.
  unfold throttle, spec_pause, m_ret.
  destruct (currently_available r <? actual_cost r + COST_BUFFER)%float.
  - destruct (restore_rate r =? 0)%float; [discriminate|].
    unfold time_sleep.
    destruct (_ || _)%bool; [discriminate|].
    destruct (PrimFloat.is_infinity _); [discriminate|].
    intros H; injection H as _ ->; reflexivity.
  - intros H; injection H as _ ->; reflexivity.
Qed.

(** The throttle check either ends with exactly the spec's pause, or raises
    without sleeping. *)
Lemma throttle_cases r :
  throttle r = (Done tt, spec_pause r) \/ exists e, throttle r = (Raised e, []).
Proof.
  unfold throttle, spec_pause, m_ret, time_sleep.
  destruct (currently_available r <? actual_cost r + COST_BUFFER)%float; [|left; reflexivity].
  destruct (restore_rate r =? 0)%float; [right; eauto|].
  destruct (_ || _)%bool; [right; eauto|].
  destruct (PrimFloat.is_infinity _); [right; eauto|left; reflexivity].
Qed.

Lemma throttle_requests r : requests (snd (throttle r)) = [].
Proof.
  unfold throttle, time_sleep, m_ret.
  destruct (_ <? _)%float; [|reflexivity].
  destruct (_ =? _)%float; [reflexivity|].
  destruct (_ || _)%bool; [reflexivity|].
  destruct (PrimFloat.is_infinity _); reflexivity.
Qed.

Lemma requests_app t1 t2 : requests (t1 ++ t2) = requests t1 ++ requests t2.
Proof. unfold requests. apply omap_app. Qed.

Lemma requests_spec_pause r : requests (spec_pause r) = [].
Proof. unfold spec_pause. destruct (_ <? _)%float; reflexivity. Qed.

Section Loop.
Variable execute : Variables.t -> result Response.t.
Variables BLACKLIST WHITELIST : gset string.

(** One turn of the loop, taken apart. *)
Lemma fetch_loop_step fuel q c acc os tr :
  fetch_loop execute BLACKLIST WHITELIST (S fuel) q c acc = (Done os, tr) ->
  exists r new t_rest,
    execute (Variables.mk q PAGE_SIZE c) = Ok r /\
    page_orders BLACKLIST WHITELIST (Page.edges (Response.orders r)) = Ok new /\
    tr = Execute (Variables.mk q PAGE_SIZE c) :: spec_pause r ++ t_rest /\
    (if PageInfo.hasNextPage (Page.pageInfo (Response.orders r))
     then fetch_loop execute BLACKLIST WHITELIST fuel q (end_cursor r) (acc ++ new)
            = (Done os, t_rest)
     else os = acc ++ new /\ t_rest = []).
Proof.
  intros H. cbn [fetch_loop] in H.
  apply m_bind_Done in H as (r & t1 & t2 & H1 & H2 & ->).
  apply client_execute_Done in H1 as [Hr ->].
  apply m_bind_Done in H2 as ([] & t3 & t4 & H3 & H4 & ->).
  apply throttle_Done in H3 as ->.
  apply m_bind_Done in H4 as (new & t5 & t6 & H5 & H6 & ->).
  apply m_lift_Done in H5 as [Hnew ->].
  exists r, new, t6. split; [done|]. split; [done|]. split; [done|].
  unfold end_cursor.
  destruct (PageInfo.hasNextPage _); simpl in H6.
  - done.
  - unfold m_ret in H6. injection H6 as -> ->. auto.
Qed.

(** Every successful run is a sequence of (request, response) turns, each
    followed by the spec's pause. *)
Lemma fetch_loop_pauses fuel q c acc os tr :
  fetch_loop execute BLACKLIST WHITELIST fuel q c acc = (Done os, tr) ->
  exists rs : list (Variables.t * Response.t),
    Forall (fun '(v, r) => execute v = Ok r) rs /\
    tr = flat_map (fun '(v, r) => Execute v :: spec_pause r) rs.
Proof.
  revert c acc os tr. induction fuel as [|fuel IH]; intros c acc os tr H.
  - discriminate.
  - apply fetch_loop_step in H as (r & new & t_rest & Hr & _ & -> & Hnext).
    destruct (PageInfo.hasNextPage _).
    + apply IH in Hnext as (rs & Hrs & ->).
      exists ((Variables.mk q PAGE_SIZE c, r) :: rs). split.
      * constructor; assumption.
      * reflexivity.
    + destruct Hnext as [_ ->].
      exists [(Variables.mk q PAGE_SIZE c, r)]. split.
      * repeat constructor; assumption.
      * simpl. rewrite app_nil_r. reflexivity.
Qed.

(** Every run, whatever its outcome, is a sequence of complete turns (a
    request, then the spec's pause for its response), possibly followed by
    one last request after which the run raised: the request itself raised,
    or the throttle check on its response raised before sleeping. *)
Lemma fetch_loop_trace fuel q c acc o tr :
  fetch_loop execute BLACKLIST WHITELIST fuel q c acc = (o, tr) ->
  exists (rs : list (Variables.t * Response.t)) tail,
    Forall (fun '(v, r) => execute v = Ok r) rs /\
    tr = flat_map (fun '(v, r) => Execute v :: spec_pause r) rs ++ tail /\
    (tail = [] \/
     exists v e, tail = [Execute v] /\ o = Raised e /\
       (execute v = Err e \/ exists r, execute v = Ok r /\ throttle r = (Raised e, []))).
Proof.
  revert c acc o tr. induction fuel as [|fuel IH]; intros c acc o tr H.
  - cbn in H. injection H as <- <-. exists [], [].
    split; [constructor|]. split; [reflexivity|]. left; reflexivity.
  - cbn [fetch_loop] in H. unfold client_execute in H.
    destruct (execute (Variables.mk q PAGE_SIZE c)) as [r|e] eqn:Hr.
    2:{ cbn in H. injection H as <- <-. exists [], [Execute (Variables.mk q PAGE_SIZE c)].
        split; [constructor|]. split; [reflexivity|]. right.
        exists (Variables.mk q PAGE_SIZE c), e. split; [reflexivity|].
        split; [reflexivity|]. left; exact Hr. }
    cbn [m_bind] in H.
    destruct (throttle_cases r) as [Ht|[e Ht]]; rewrite Ht in H; cbn [m_bind] in H.
    2:{ injection H as <- <-. exists [], [Execute (Variables.mk q PAGE_SIZE c)].
        split; [constructor|]. split; [reflexivity|]. right.
        exists (Variables.mk q PAGE_SIZE c), e. split; [reflexivity|].
        split; [reflexivity|]. right. exists r. split; assumption. }
    destruct (page_orders BLACKLIST WHITELIST (Page.edges (Response.orders r)))
      as [new|e] eqn:Hp; cbn [m_lift m_bind] in H.
    2:{ injection H as <- <-. exists [(Variables.mk q PAGE_SIZE c, r)], [].
        split; [repeat constructor; exact Hr|]. split; [|left; reflexivity].
        cbn. rewrite !app_nil_r. reflexivity. }
    destruct (PageInfo.hasNextPage (Page.pageInfo (Response.orders r))); cbn [negb] in H.
    + destruct (fetch_loop execute BLACKLIST WHITELIST fuel q _ (acc ++ new))
        as [o' tr'] eqn:Hrec.
      injection H as <- <-.
      destruct (IH _ _ _ _ Hrec) as (rs & tail & Hrs & -> & Htail).
      exists ((Variables.mk q PAGE_SIZE c, r) :: rs), tail.
      split; [constructor; assumption|]. split; [|exact Htail].
      cbn. rewrite !app_assoc. reflexivity.
    + unfold m_ret in H. injection H as <- <-.
      exists [(Variables.mk q PAGE_SIZE c, r)], [].
      split; [repeat constructor; exact Hr|]. split; [|left; reflexivity].
      cbn. rewrite !app_nil_r. reflexivity.
Qed.

(** Whatever holds of the orders of every served page holds of the result. *)
Lemma fetch_loop_Forall (P : Order.t -> Prop) fuel q c acc os tr :
  (forall v r new, execute v = Ok r ->
     page_orders BLACKLIST WHITELIST (Page.edges (Response.orders r)) = Ok new ->
     Forall P new) ->
  Forall P acc ->
  fetch_loop execute BLACKLIST WHITELIST fuel q c acc = (Done os, tr) ->
  Forall P os.
Proof.
  intros Hpage. revert c acc os tr.
  induction fuel as [|fuel IH]; intros c acc os tr Hacc H; [discriminate|].
  apply fetch_loop_step in H as (r & new & t_rest & Hr & Hnew & _ & Hnext).
  pose proof (Hpage _ _ _ Hr Hnew) as Pnew.
  destruct (PageInfo.hasNextPage _).
  - eapply IH; [|exact Hnext]. apply Forall_app; split; assumption.
  - destruct Hnext as [-> _]. apply Forall_app; split; assumption.
Qed.
(** One turn of the loop, computed forwards. *)
Lemma fetch_loop_S_ok fuel q c acc r t_th new :
  execute (Variables.mk q PAGE_SIZE c) = Ok r ->
  throttle r = (Done tt, t_th) ->
  page_orders BLACKLIST WHITELIST (Page.edges (Response.orders r)) = Ok new ->
  fetch_loop execute BLACKLIST WHITELIST (S fuel) q c acc =
    let '(o, t) :=
      if PageInfo.hasNextPage (Page.pageInfo (Response.orders r))
      then fetch_loop execute BLACKLIST WHITELIST fuel q (end_cursor r) (acc ++ new)
      else m_ret (acc ++ new) in
    (o, Execute (Variables.mk q PAGE_SIZE c) :: t_th ++ t).
Proof.
  intros Hr Ht Hnew. cbn [fetch_loop]. unfold client_execute. rewrite Hr.
  cbn [m_bind]. rewrite Ht. cbn [m_bind m_lift]. rewrite Hnew.
  cbn [m_bind m_lift]. unfold end_cursor.
  destruct (PageInfo.hasNextPage _); cbn [negb].
  - destruct (fetch_loop _ _ _ _ _ _ _); reflexivity.
  - reflexivity.
Qed.

(** A provider serving [rs] is paged through in [length rs] requests. *)
Lemma fetch_loop_serves q c rs :
  serves execute q c rs ->
  forall oss fuel acc,
  Forall2 (fun r os =>
    page_orders BLACKLIST WHITELIST (Page.edges (Response.orders r)) = Ok os) rs oss ->
  Forall (fun r => fst (throttle r) = Done tt) rs ->
  (length rs <= fuel)%nat ->
  exists tr,
    fetch_loop execute BLACKLIST WHITELIST fuel q c acc = (Done (acc ++ concat oss), tr) /\
    requests tr = map (Variables.mk q PAGE_SIZE) (c :: map end_cursor (removelast rs)).
Proof.
  induction 1 as [c r Hr Hlast | c r rs Hr Hnext Hserves IH];
    intros oss fuel acc Hoss Hth Hfuel.
  - inversion Hoss as [|? os ? ? Hos Hnil]; subst. inversion Hnil; subst.
    destruct fuel as [|fuel]; [simpl in Hfuel; lia|].
    inversion Hth as [|? ? Hthr _]; subst.
    destruct (throttle r) as [o t_th] eqn:Ht. simpl in Hthr. subst o.
    rewrite (fetch_loop_S_ok fuel q c acc r t_th os Hr Ht Hos), Hlast.
    exists (Execute (Variables.mk q PAGE_SIZE c) :: t_th ++ []). split.
    + simpl. rewrite !app_nil_r. reflexivity.
    + simpl. rewrite requests_app.
      pose proof (throttle_requests r) as E. rewrite Ht in E. simpl in E.
      rewrite E. reflexivity.
  - inversion Hoss as [|? os ? oss' Hos Hoss']; subst.
    destruct fuel as [|fuel]; [simpl in Hfuel; lia|].
    inversion Hth as [|? ? Hthr Hth']; subst.
    destruct (throttle r) as [o t_th] eqn:Ht. simpl in Hthr. subst o.
    destruct (IH oss' fuel (acc ++ os) Hoss' Hth') as (tr & Hrun & Hreq);
      [simpl in Hfuel; lia|].
    rewrite (fetch_loop_S_ok fuel q c acc r t_th os Hr Ht Hos), Hnext.
    change (PageInfo.endCursor (Page.pageInfo (Response.orders r))) with (end_cursor r)
      in Hrun.
    rewrite Hrun.
    eexists. split.
    + rewrite <- app_assoc. reflexivity.
    + simpl. rewrite requests_app.
      pose proof (throttle_requests r) as E. rewrite Ht in E. simpl in E.
      rewrite E, Hreq. simpl.
      destruct rs as [|r' rs']; [inversion Hserves|]. reflexivity.
Qed.
End Loop.

Lemma length_removelast_S {A} (l : list A) :
  l <> [] -> S (length (removelast l)) = length l.
Proof.
  induction l as [|x [|y l] IH]; intros Hne; [done|done|].
  change (removelast (x :: y :: l)) with (x :: removelast (y :: l)).
  cbn [length]. f_equal. apply IH. discriminate.
Qed.

(** ** Claim C2: the throttle *)

(** C2. In every run of [fetch_orders], whatever its outcome, each page
    response that the run goes on with is followed, before the next request,
    by exactly the spec's pause: a sleep of
    [((cost + COST_BUFFER) - remaining) / refill_rate] seconds when
    [remaining < cost + COST_BUFFER], none otherwise.  The trace is a
    sequence of such turns; a run that raises may end with one more request,
    when the request itself raised or the throttle check on its response
    raised (a [restoreRate] of 0, or a duration [time.sleep] rejects) before
    any sleep and any further request.  With remaining budget 50, cost 10,
    buffer 50 and refill rate 50 the fetcher sleeps 0.2 s before the next
    request, also when that request then raises; with remaining budget 1000
    it does not sleep. *)
Theorem fetch_orders_throttle_pause :
  (forall execute BLACKLIST WHITELIST fuel since o tr,
     fetch_orders execute BLACKLIST WHITELIST fuel since = (o, tr) ->
     exists (rs : list (Variables.t * Response.t)) tail,
       Forall (fun '(v, r) => execute v = Ok r) rs /\
       tr = flat_map (fun '(v, r) => Execute v :: spec_pause r) rs ++ tail /\
       (tail = [] \/
        exists v e, tail = [Execute v] /\ o = Raised e /\
          (execute v = Err e \/ exists r, execute v = Ok r /\ throttle r = (Raised e, [])))) /\
  fetch_orders (Tests.budget_pages 50) ∅ ∅ 10%nat Tests.since
    = (Done [], [Execute (Variables.mk (query_string Tests.since) PAGE_SIZE None);
                 Sleep 0.2;
                 Execute (Variables.mk (query_string Tests.since) PAGE_SIZE (Some "c1"))]) /\
  fetch_orders Tests.budget_then_error ∅ ∅ 10%nat Tests.since
    = (Raised HTTPStatusError,
       [Execute (Variables.mk (query_string Tests.since) PAGE_SIZE None);
        Sleep 0.2;
        Execute (Variables.mk (query_string Tests.since) PAGE_SIZE (Some "c1"))]) /\
  fetch_orders (Tests.budget_pages 1000) ∅ ∅ 10%nat Tests.since
    = (Done [], [Execute (Variables.mk (query_string Tests.since) PAGE_SIZE None);
                 Execute (Variables.mk (query_string Tests.since) PAGE_SIZE (Some "c1"))]).
Proof.
  split; [|split; [reflexivity|split; reflexivity]].
  intros execute BLACKLIST WHITELIST fuel since o tr H.
  exact (fetch_loop_trace execute BLACKLIST WHITELIST fuel _ _ _ _ _ H).
Qed.

Lemma fetch_orders_throttle_pause_witness :
  exists (rs : list (Variables.t * Response.t)) tail,
    Forall (fun '(v, r) => Tests.budget_then_error v = Ok r) rs /\
    [Execute (Variables.mk (query_string Tests.since) PAGE_SIZE None);
     Sleep 0.2;
     Execute (Variables.mk (query_string Tests.since) PAGE_SIZE (Some "c1"))]
    = flat_map (fun '(v, r) => Execute v :: spec_pause r) rs ++ tail /\
    (tail = [] \/
     exists v e, tail = [Execute v] /\ Raised HTTPStatusError = @Raised (list Order.t) e /\
       (Tests.budget_then_error v = Err e \/
        exists r, Tests.budget_then_error v = Ok r /\ throttle r = (Raised e, []))).
Proof.
  apply (proj1 fetch_orders_throttle_pause Tests.budget_then_error ∅ ∅ 10%nat Tests.since).
  reflexivity.
Defined.

(** ** Claim C3: pagination *)

(** C3. If the provider serves the pages [rs] along the cursor chain
    (first request with a null cursor, each next request with the previous
    page's [endCursor], the last page with [hasNextPage] false), and the
    pages are processed and throttled without raising, [fetch_orders]
    issues exactly [length rs] requests, the first with cursor [None] and
    each later one with the previous page's end cursor, and returns the
    concatenation of the pages' surviving orders in page order.  A single
    page with no edges and [hasNextPage] false yields [] after exactly one
    request. *)
Theorem fetch_orders_pagination :
  (forall execute BLACKLIST WHITELIST fuel since rs oss,
     serves execute (query_string since) None rs ->
     Forall2 (fun r os =>
       page_orders BLACKLIST WHITELIST (Page.edges (Response.orders r)) = Ok os) rs oss ->
     Forall (fun r => fst (throttle r) = Done tt) rs ->
     (length rs <= fuel)%nat ->
     exists tr,
       fetch_orders execute BLACKLIST WHITELIST fuel since = (Done (concat oss), tr) /\
       requests tr = map (Variables.mk (query_string since) PAGE_SIZE)
                       (None :: map end_cursor (removelast rs)) /\
       length (requests tr) = length rs) /\
  (forall BLACKLIST WHITELIST fuel since,
     (1 <= fuel)%nat ->
     fetch_orders (Tests.single_page []) BLACKLIST WHITELIST fuel since
       = (Done [], [Execute (Variables.mk (query_string since) PAGE_SIZE None)])).
Proof.
  split.
  - intros execute BLACKLIST WHITELIST fuel since rs oss Hs Hoss Hth Hfuel.
    destruct (fetch_loop_serves execute BLACKLIST WHITELIST _ _ _ Hs oss fuel []
                Hoss Hth Hfuel) as (tr & Hrun & Hreq).
    exists tr. split; [exact Hrun|]. split; [exact Hreq|].
    rewrite Hreq. simpl. rewrite !length_map.
    apply length_removelast_S. destruct Hs; discriminate.
  - intros BLACKLIST WHITELIST [|fuel] since Hfuel; [lia|]. reflexivity.
Qed.

Lemma fetch_orders_pagination_witness :
  exists tr,
    fetch_orders Tests.two_pages ∅ ∅ 2%nat Tests.since
      = (Done (concat Tests.two_pages_orders), tr) /\
    requests tr = map (Variables.mk (query_string Tests.since) PAGE_SIZE)
                    (None :: map end_cursor (removelast [Tests.page1; Tests.page2])) /\
    length (requests tr) = length [Tests.page1; Tests.page2].
Proof.
  apply (proj1 fetch_orders_pagination).
  - apply serves_next; [reflexivity|reflexivity|]. apply serves_last; reflexivity.
  - let l := eval vm_compute in Tests.two_pages_orders in
    change Tests.two_pages_orders with l.
    constructor; [vm_compute; reflexivity|].
    constructor; [vm_compute; reflexivity|]. constructor.
  - repeat constructor.
  - simpl. lia.
Defined.

(** ** Results and comprehensions *)

Lemma result_bind_Ok {A B} (m : result A) (k : A -> result B) b :
  (x ← m; k x) = Ok b -> exists a, m = Ok a /\ k a = Ok b.
Proof. destruct m as [a|e]; simpl; [eauto|discriminate]. Qed.

Lemma map_result_Forall2 {A B} (f : A -> result B) xs ys :
  map_result f xs = Ok ys -> Forall2 (fun x y => f x = Ok y) xs ys.
Proof.
  revert ys. induction xs as [|x xs IH]; intros ys H; simpl in H.
  - injection H as <-. constructor.
  - apply result_bind_Ok in H as (y & Hy & H).
    apply result_bind_Ok in H as (ys' & Hys & H). injection H as <-.
    constructor; auto.
Qed.

Lemma map_result_Forall2_ok {A B} (f : A -> result B) xs ys :
  Forall2 (fun x y => f x = Ok y) xs ys -> map_result f xs = Ok ys.
Proof. induction 1 as [|x y xs ys Hxy _ IH]; simpl; [done|]. by rewrite Hxy, IH. Qed.

(** ** Claim C4: tag filtering *)

Lemma existsb_Exists {A} (P : A -> Prop) `{forall x, Decision (P x)} (l : list A) :
  existsb (fun x => bool_decide (P x)) l = bool_decide (Exists P l).
Proof.
  induction l as [|x l IH]; cbn [existsb].
  - symmetry. apply bool_decide_eq_false_2. inversion 1.
  - rewrite IH. apply Bool.eq_iff_eq_true.
    rewrite Bool.orb_true_iff, !bool_decide_eq_true, Exists_cons. tauto.
Qed.

Lemma is_kept_admitted BLACKLIST WHITELIST node :
  is_kept BLACKLIST WHITELIST node = bool_decide (tag_admitted BLACKLIST WHITELIST node).
Proof.
  unfold is_kept, tag_admitted. cbv zeta. rewrite !existsb_Exists.
  repeat case_bool_decide; simpl; first [reflexivity | exfalso; tauto].
Qed.

Lemma page_orders_filter_eq BLACKLIST WHITELIST (es : list RawNode.t) :
  page_orders BLACKLIST WHITELIST es
    = map_result _map (filter (tag_admitted BLACKLIST WHITELIST) es).
Proof.
  induction es as [|node es IH]; [reflexivity|].
  cbn [page_orders]. rewrite is_kept_admitted, filter_cons, IH.
  case_bool_decide; case_decide; try contradiction; reflexivity.
Qed.

(** C4. On every page, [fetch_orders] keeps exactly the nodes admitted by
    the tag rule, in page order, and maps them: a node with a lowercased
    tag in the deny-list is dropped whatever the allow-list says; otherwise
    a non-empty allow-list admits only nodes with a lowercased tag in it,
    and an empty allow-list admits every node. *)
Theorem page_orders_tag_filter BLACKLIST WHITELIST (es : list RawNode.t) :
  page_orders BLACKLIST WHITELIST es
    = map_result _map (filter (tag_admitted BLACKLIST WHITELIST) es).
Proof. apply page_orders_filter_eq. Qed.

(** ** Claim C5: unfulfilled quantities *)

Lemma map_line_item_fields raw li :
  map_line_item raw = Ok li ->
  OrderLineItem.id li = RawLineItem.id raw /\
  OrderLineItem.quantity li = RawLineItem.unfulfilledQuantity raw.
Proof.
  unfold map_line_item. intros H.
  apply result_bind_Ok in H as (price & _ & H).
  apply result_bind_Ok in H as (tls & _ & H).
  apply result_bind_Ok in H as (ds & _ & H).
  destruct (RawLineItem.sku raw); [|discriminate].
  injection H as <-. auto.
Qed.

Lemma _map_line_items node o :
  _map node = Ok o ->
  map_result map_line_item
    (filter (fun item => 0 < RawLineItem.unfulfilledQuantity item) (RawNode.lineItems node))
  = Ok (Order.line_items o).
Proof.
  unfold _map. intros H.
  apply result_bind_Ok in H as (items & Hitems & H).
  apply result_bind_Ok in H as (sl & _ & H).
  injection H as <-. exact Hitems.
Qed.

(** C5. Every [Order] built by [_map] holds, in order, one line item per
    raw line item with [unfulfilledQuantity > 0] (same id), whose quantity
    is that unfulfilled quantity; so all its line items have positive
    quantity, and so does every order [fetch_orders] returns. *)
Theorem map_unfulfilled_line_items :
  (forall node o,
     _map node = Ok o ->
     Forall2 (fun raw li =>
                OrderLineItem.id li = RawLineItem.id raw /\
                OrderLineItem.quantity li = RawLineItem.unfulfilledQuantity raw)
       (filter (fun raw => 0 < RawLineItem.unfulfilledQuantity raw) (RawNode.lineItems node))
       (Order.line_items o) /\
     Forall (fun li => 0 < OrderLineItem.quantity li) (Order.line_items o)) /\
  (forall execute BLACKLIST WHITELIST fuel since os tr,
     fetch_orders execute BLACKLIST WHITELIST fuel since = (Done os, tr) ->
     Forall (fun o => Forall (fun li => 0 < OrderLineItem.quantity li) (Order.line_items o)) os).
Proof.
  assert (Hmap : forall node o, _map node = Ok o ->
     Forall2 (fun raw li =>
                OrderLineItem.id li = RawLineItem.id raw /\
                OrderLineItem.quantity li = RawLineItem.unfulfilledQuantity raw)
       (filter (fun raw => 0 < RawLineItem.unfulfilledQuantity raw) (RawNode.lineItems node))
       (Order.line_items o) /\
     Forall (fun li => 0 < OrderLineItem.quantity li) (Order.line_items o)).
  { intros node o H.
    pose proof (map_result_Forall2 _ _ _ (_map_line_items node o H)) as H2.
    assert (Hf : Forall2 (fun raw li =>
                OrderLineItem.id li = RawLineItem.id raw /\
                OrderLineItem.quantity li = RawLineItem.unfulfilledQuantity raw)
       (filter (fun raw => 0 < RawLineItem.unfulfilledQuantity raw) (RawNode.lineItems node))
       (Order.line_items o)).
    { eapply Forall2_impl; [exact H2|]. intros raw li. apply map_line_item_fields. }
    split; [exact Hf|].
    eapply Forall2_Forall_r; [exact Hf|].
    apply Forall_forall. intros raw Hin li [_ ->].
    apply list_elem_of_filter in Hin as [Hpos _]. exact Hpos. }
  split; [exact Hmap|].
  intros execute BLACKLIST WHITELIST fuel since os tr Hrun.
  eapply fetch_loop_Forall; [|constructor|exact Hrun].
  intros v r new _ Hnew.
  rewrite page_orders_filter_eq in Hnew.
  apply map_result_Forall2 in Hnew.
  eapply Forall2_Forall_r; [exact Hnew|].
  apply Forall_forall. intros node _ o Ho. exact (proj2 (Hmap node o Ho)).
Qed.

Lemma map_unfulfilled_line_items_witness :
  exists o, _map Tests.partial_node = Ok o /\
    Forall2 (fun raw li =>
               OrderLineItem.id li = RawLineItem.id raw /\
               OrderLineItem.quantity li = RawLineItem.unfulfilledQuantity raw)
      (filter (fun raw => 0 < RawLineItem.unfulfilledQuantity raw)
         (RawNode.lineItems Tests.partial_node))
      (Order.line_items o).
Proof.
  destruct (_map Tests.partial_node) as [o|err] eqn:E;
    [|vm_compute in E; discriminate].
  exists o. split; [reflexivity|].
  exact (proj1 (proj1 map_unfulfilled_line_items Tests.partial_node o E)).
Defined.

(** ** The mapper *)

(** What a successful [map_order_to_everstox] returns, field by field. *)
Lemma map_order_to_everstox_Ok o e :
  map_order_to_everstox o = Ok e ->
  EverstoxOrder.shipping_address e
    = match Order.shipping_address o with
      | Some a => _map_shipping_address a
      | None => fallback_shipping_address
      end /\
  EverstoxOrder.billing_address e
    = match Order.billing_address o with
      | Some a => _map_billing_address a
      | None => fallback_billing_address
      end /\
  EverstoxOrder.shipping_price e
    = shipping_price_of (Order.shipping_line o) (Order.currency o) /\
  EverstoxOrder.customer_email e = py_or_str (Order.email o) "unknown@example.com" /\
  (Order.line_items o <> [] ->
   _map_order_items (Order.line_items o)
     (match Order.shipping_line o with
      | Some sl => [ShipmentOption.mk None (OrderShippingLine.title sl)]
      | None => []
      end) = Ok (EverstoxOrder.order_items e)).
Proof.
  unfold map_order_to_everstox. intros H.
  apply result_bind_Ok in H as (items & Hitems & H). injection H as <-. simpl.
  repeat split; [].
  destruct (Order.line_items o); [done|]. intros _. exact Hitems.
Qed.

Lemma custom_attributes_carried cas attrs :
  map_result (fun ca => new_CustomAttribute (Attribute.key ca) (Attribute.value ca)) attrs
    = Ok cas ->
  map (fun ca => (CustomAttribute.attribute_key ca, Some (CustomAttribute.attribute_value ca))) cas
    = map (fun a => (Attribute.key a, Attribute.value a)) attrs.
Proof.
  intros H. apply map_result_Forall2 in H.
  induction H as [|a ca attrs cas Hca _ IH]; [reflexivity|].
  simpl. rewrite IH. unfold new_CustomAttribute in Hca.
  destruct (Attribute.value a); [|discriminate]. injection Hca as <-. reflexivity.
Qed.

Lemma map_order_item_carried opts item out :
  map_order_item opts item = Ok out -> item_carried item out.
Proof.
  unfold map_order_item. intros H.
  apply result_bind_Ok in H as (cas & Hcas & H).
  unfold new_OrderItem in H. destruct (decide _); [|discriminate].
  injection H as <-.
  unfold item_carried. cbn.
  split; [done|]. split; [done|].
  split; [exact (custom_attributes_carried _ _ Hcas)|].
  eexists. split; [reflexivity|]. cbn. repeat split.
Qed.

(** ** Claim C6: per-item price breakdown *)

(** C6. When [map_order_to_everstox] maps an order with line items, the
    output items correspond one to one, in order, to the order's line items:
    each carries the item's quantity, SKU and key/value custom attributes,
    and a single price breakdown with net-after-discount
    [price - discount_total], tax amount and tax the sum of the tax line
    amounts, tax rate the first tax line's rate (0 with no tax lines), and
    discount and discount_gross the discount total. *)
Theorem map_order_items_carried o e :
  map_order_to_everstox o = Ok e ->
  Order.line_items o <> [] ->
  Forall2 item_carried (Order.line_items o) (EverstoxOrder.order_items e).
Proof.
  intros H Hne.
  destruct (map_order_to_everstox_Ok o e H) as (_ & _ & _ & _ & Hitems).
  apply Hitems in Hne. unfold _map_order_items in Hne.
  apply map_result_Forall2 in Hne.
  eapply Forall2_impl; [exact Hne|]. intros item out. apply map_order_item_carried.
Qed.

Lemma map_order_items_carried_witness :
  exists e,
    map_order_to_everstox (Tests.make_order None None [Tests.widget_item]) = Ok e /\
    Forall2 item_carried [Tests.widget_item] (EverstoxOrder.order_items e).
Proof.
  eexists. split; [reflexivity|].
  apply (map_order_items_carried (Tests.make_order None None [Tests.widget_item])).
  - reflexivity.
  - discriminate.
Defined.

(** ** Claim C10: customer e-mail *)

(** C10. Whenever [map_order_to_everstox] returns, the customer e-mail is
    the sentinel ["unknown@example.com"] when the order's e-mail is absent or
    the empty string, and the order's own e-mail when it is a non-empty
    string. *)
Theorem map_customer_email o e :
  map_order_to_everstox o = Ok e ->
  (Order.email o = None -> EverstoxOrder.customer_email e = "unknown@example.com") /\
  (Order.email o = Some "" -> EverstoxOrder.customer_email e = "unknown@example.com") /\
  (forall v, Order.email o = Some v -> v <> "" -> EverstoxOrder.customer_email e = v).
Proof.
  intros H. destruct (map_order_to_everstox_Ok o e H) as (_ & _ & _ & Hmail & _).
  rewrite Hmail. unfold py_or_str.
  split; [intros -> ; reflexivity|]. split; [intros -> ; reflexivity|].
  intros v -> Hv. case_decide; [contradiction|reflexivity].
Qed.

Lemma map_customer_email_witness :
  exists e,
    map_order_to_everstox (Tests.make_order (Some "") None []) = Ok e /\
    EverstoxOrder.customer_email e = "unknown@example.com".
Proof.
  destruct (map_order_to_everstox (Tests.make_order (Some "") None [])) as [e|err] eqn:E;
    [|vm_compute in E; discriminate].
  exists e. split; [reflexivity|].
  exact (proj1 (proj2 (map_customer_email _ _ E)) eq_refl).
Defined.

(** ** Claim C1: shipping price *)

(** The spec's example order: original price 10.00, discounted price 8.00,
    one tax line (rate 0.19, amount 1.52), no line items. *)
Definition spec_shipping_order : Order.t :=
  Tests.make_order (Some "customer@example.com") (Some Tests.spec_shipping_line) [].

(** C1, as stated (price = the discounted price), fails on the spec's own
    example: the mapper reports the original price 10.00, not 8.00. *)
Lemma map_shipping_price_not_discounted :
  ¬ (forall e,
       map_order_to_everstox spec_shipping_order = Ok e ->
       ShippingPrice.price (EverstoxOrder.shipping_price e)
         = OrderShippingLine.discounted_price Tests.spec_shipping_line).
Proof.
  intros H.
  destruct (map_order_to_everstox spec_shipping_order) as [e|err] eqn:E;
    [|vm_compute in E; discriminate].
  specialize (H e eq_refl).
  destruct (map_order_to_everstox_Ok _ _ E) as (_ & _ & Hsp & _).
  rewrite Hsp in H. vm_compute in H.
  apply (f_equal (fun x => PrimFloat.eqb x 8%float)) in H.
  vm_compute in H. discriminate.
Qed.

(** C1 (amended). For every order with a shipping line that
    [map_order_to_everstox] maps, the shipping price breakdown has price
    equal to the shipping line's ORIGINAL price; tax amount and tax the sum
    of its tax line amounts; tax rate the first tax line's rate (0 with no
    tax lines); discount and discount_gross original minus discounted price;
    net-after-discount discounted price minus the tax amount; currency the
    shipping line's.  On the spec's example (10.00 / 8.00 / one tax line
    0.19, 1.52) the output is price 10.00, discount 2.00, tax amount 1.52,
    tax rate 0.19 and net-after-discount 6.48. *)
Theorem map_shipping_price :
  (forall o e sl,
     map_order_to_everstox o = Ok e ->
     Order.shipping_line o = Some sl ->
     let sp := EverstoxOrder.shipping_price e in
     let tax_sum := py_sum (map OrderTaxLine.amount (OrderShippingLine.tax_lines sl)) in
     ShippingPrice.price sp = OrderShippingLine.original_price sl /\
     ShippingPrice.tax_amount sp = tax_sum /\
     ShippingPrice.tax sp = tax_sum /\
     ShippingPrice.tax_rate sp
       = match OrderShippingLine.tax_lines sl with
         | t :: _ => OrderTaxLine.rate t
         | [] => 0%float
         end /\
     ShippingPrice.discount sp
       = (OrderShippingLine.original_price sl - OrderShippingLine.discounted_price sl)%float /\
     ShippingPrice.discount_gross sp
       = (OrderShippingLine.original_price sl - OrderShippingLine.discounted_price sl)%float /\
     ShippingPrice.price_net_after_discount sp
       = (OrderShippingLine.discounted_price sl - tax_sum)%float /\
     ShippingPrice.currency sp = OrderShippingLine.currency sl) /\
  (forall e,
     map_order_to_everstox spec_shipping_order = Ok e ->
     let sp := EverstoxOrder.shipping_price e in
     ShippingPrice.price sp = 10.00%float /\
     ShippingPrice.discount sp = 2.00%float /\
     ShippingPrice.tax_amount sp = 1.52%float /\
     ShippingPrice.tax_rate sp = 0.19%float /\
     ShippingPrice.price_net_after_discount sp = 6.48%float).
Proof.
  split.
  - intros o e sl H Hsl.
    destruct (map_order_to_everstox_Ok o e H) as (_ & _ & Hsp & _).
    cbv zeta. rewrite Hsp, Hsl. simpl. repeat split.
  - intros e H.
    destruct (map_order_to_everstox_Ok _ _ H) as (_ & _ & Hsp & _).
    cbv zeta. rewrite Hsp. vm_compute. repeat split.
Qed.

Lemma map_shipping_price_witness :
  exists e,
    map_order_to_everstox spec_shipping_order = Ok e /\
    ShippingPrice.price (EverstoxOrder.shipping_price e)
      = OrderShippingLine.original_price Tests.spec_shipping_line /\
    ShippingPrice.price (EverstoxOrder.shipping_price e) = 10.00%float.
Proof.
  destruct (map_order_to_everstox spec_shipping_order) as [e|err] eqn:E;
    [|vm_compute in E; discriminate].
  exists e. split; [reflexivity|]. split.
  - exact (proj1 (proj1 map_shipping_price _ e Tests.spec_shipping_line E eq_refl)).
  - exact (proj1 (proj2 map_shipping_price e E)).
Defined.

(** ** Claim C7: addresses *)

Lemma map_result_Forall_ok {A B} (f : A -> result B) (P : A -> Prop) xs :
  (forall x, P x -> exists y, f x = Ok y) ->
  Forall P xs -> exists ys, map_result f xs = Ok ys.
Proof.
  intros Hf. induction 1 as [|x xs Hx _ [ys Hys]]; [by exists []|].
  destruct (Hf x Hx) as [y Hy].
  exists (y :: ys). cbn [map_result]. rewrite Hy, Hys. reflexivity.
Qed.

Lemma map_order_item_ok opts item :
  item_valid item -> exists out, map_order_item opts item = Ok out.
Proof.
  intros [Hq Hattrs]. unfold map_order_item.
  destruct (map_result_Forall_ok
              (fun ca => new_CustomAttribute (Attribute.key ca) (Attribute.value ca))
              (fun a => Attribute.value a <> None) (OrderLineItem.custom_attributes item))
    as [cas Hcas]; [|exact Hattrs|].
  { intros a Ha. unfold new_CustomAttribute.
    destruct (Attribute.value a); [by eexists|congruence]. }
  rewrite Hcas. simpl. unfold new_OrderItem. case_decide; [by eexists|lia].
Qed.

Lemma map_order_to_everstox_ok o :
  Forall item_valid (Order.line_items o) -> exists e, map_order_to_everstox o = Ok e.
Proof.
  intros Hv. unfold map_order_to_everstox.
  destruct (Order.line_items o) as [|item items] eqn:El.
  - by eexists.
  - destruct (map_result_Forall_ok
                (map_order_item
                   (match Order.shipping_line o with
                    | Some sl => [ShipmentOption.mk None (OrderShippingLine.title sl)]
                    | None => []
                    end))
                item_valid (item :: items)) as [outs Houts]; [|exact Hv|].
    { intros x Hx. apply map_order_item_ok, Hx. }
    unfold _map_order_items. rewrite Houts. by eexists.
Qed.

(** C7, as stated ("never raises" when an address is absent), fails: an
    order with neither address whose line item carries a custom attribute
    with a null value makes [map_order_to_everstox] raise a validation
    error. *)
Lemma map_absent_address_raises :
  Order.shipping_address (Tests.make_order None None [Tests.null_attribute_item]) = None /\
  Order.billing_address (Tests.make_order None None [Tests.null_attribute_item]) = None /\
  map_order_to_everstox (Tests.make_order None None [Tests.null_attribute_item])
    = Err ValidationError.
Proof. split; [reflexivity|]. split; [reflexivity|]. vm_compute. reflexivity. Qed.

(** C7 (amended). Whenever [map_order_to_everstox] returns, an absent
    shipping (billing) address becomes the placeholder with sentinel names,
    city, street and postal code and the default country code, and a present
    one is copied field for field.  The mapper returns for every order whose
    line items are all valid (quantity at least 1, no custom attribute with
    a null value), absent addresses included; so when it raises, some line
    item is invalid. *)
Theorem map_order_addresses :
  (forall o e,
     map_order_to_everstox o = Ok e ->
     (forall a, Order.shipping_address o = Some a ->
                shipping_address_copied a (EverstoxOrder.shipping_address e)) /\
     (Order.shipping_address o = None ->
      shipping_placeholder (EverstoxOrder.shipping_address e)) /\
     (forall a, Order.billing_address o = Some a ->
                billing_address_copied a (EverstoxOrder.billing_address e)) /\
     (Order.billing_address o = None ->
      billing_placeholder (EverstoxOrder.billing_address e))) /\
  (forall o, Forall item_valid (Order.line_items o) ->
             exists e, map_order_to_everstox o = Ok e) /\
  (forall o err, map_order_to_everstox o = Err err ->
                 ¬ Forall item_valid (Order.line_items o)).
Proof.
  split; [|split].
  - intros o e H.
    destruct (map_order_to_everstox_Ok o e H) as (Hs & Hb & _).
    rewrite Hs, Hb.
    repeat split; intros; subst; simpl;
      repeat match goal with H : Order.shipping_address _ = _ |- _ => rewrite H
                           | H : Order.billing_address _ = _ |- _ => rewrite H end;
      repeat split.
  - exact map_order_to_everstox_ok.
  - intros o err H Hv. destruct (map_order_to_everstox_ok o Hv) as [e He]. congruence.
Qed.

Lemma map_order_addresses_witness :
  exists e,
    map_order_to_everstox (Tests.make_order None None [Tests.widget_item]) = Ok e /\
    shipping_placeholder (EverstoxOrder.shipping_address e) /\
    billing_placeholder (EverstoxOrder.billing_address e).
Proof.
  assert (Hv : Forall item_valid (Order.line_items
                 (Tests.make_order None None [Tests.widget_item]))).
  { constructor; [|constructor]. split; [simpl; lia|].
    constructor; [discriminate|constructor]. }
  destruct (proj1 (proj2 map_order_addresses) _ Hv) as [e He].
  exists e. split; [exact He|].
  destruct (proj1 map_order_addresses _ _ He) as (_ & Hs & _ & Hb).
  split; [apply Hs | apply Hb]; reflexivity.
Defined.

(** ** Claim C8: tags *)

Lemma _map_tags node o : _map node = Ok o -> Order.tags o = RawNode.tags node.
Proof.
  unfold _map. intros H.
  apply result_bind_Ok in H as (items & _ & H).
  apply result_bind_Ok in H as (sl & _ & H).
  injection H as <-. reflexivity.
Qed.

(** C8, as stated (every stored tag is lowercase), fails: a single page
    with one node tagged ["VIP"] and empty lists yields an order whose tag
    is ["VIP"]. *)
Lemma fetch_orders_keeps_tag_case :
  ¬ (forall os tr,
       fetch_orders (Tests.single_page [Tests.make_node "gid://shopify/Order/1" "#1001" ["VIP"]])
         ∅ ∅ 1%nat Tests.since = (Done os, tr) ->
       Forall (fun o => Forall (fun t => py_lower t = t) (Order.tags o)) os).
Proof.
  intros H.
  destruct (fetch_orders (Tests.single_page [Tests.make_node "gid://shopify/Order/1" "#1001" ["VIP"]])
              ∅ ∅ 1%nat Tests.since) as [out tr] eqn:E.
  destruct out as [os|err|]; [|vm_compute in E; discriminate|vm_compute in E; discriminate].
  specialize (H os tr eq_refl).
  vm_compute in E. injection E as <- <-.
  apply Forall_inv in H. apply Forall_inv in H.
  vm_compute in H. discriminate.
Qed.

(** C8 (amended). Every order [fetch_orders] returns is the mapping of a
    node of a served page that passed the tag rule, and carries that node's
    tags exactly as Shopify sent them: lowercasing is applied only when
    comparing tags with the lists, not to the stored tags. *)
Theorem fetch_orders_tags_verbatim execute BLACKLIST WHITELIST fuel since os tr :
  fetch_orders execute BLACKLIST WHITELIST fuel since = (Done os, tr) ->
  Forall (fun o =>
            exists v r node,
              execute v = Ok r /\
              node ∈ Page.edges (Response.orders r) /\
              tag_admitted BLACKLIST WHITELIST node /\
              _map node = Ok o /\
              Order.tags o = RawNode.tags node) os.
Proof.
  intros H. eapply fetch_loop_Forall; [|constructor|exact H].
  intros v r new Hr Hnew.
  rewrite page_orders_filter_eq in Hnew. apply map_result_Forall2 in Hnew.
  eapply Forall2_Forall_r; [exact Hnew|].
  apply Forall_forall. intros node Hin o Ho.
  apply list_elem_of_filter in Hin as [Hadm Hin].
  exists v, r, node.
  split; [exact Hr|]. split; [exact Hin|]. split; [exact Hadm|].
  split; [exact Ho|]. apply _map_tags, Ho.
Qed.

Lemma fetch_orders_tags_verbatim_witness :
  exists os tr,
    fetch_orders (Tests.single_page [Tests.make_node "gid://shopify/Order/1" "#1001" ["VIP"]])
      ∅ ∅ 1%nat Tests.since = (Done os, tr) /\
    Forall (fun o => exists v r node,
              Tests.single_page [Tests.make_node "gid://shopify/Order/1" "#1001" ["VIP"]] v = Ok r /\
              node ∈ Page.edges (Response.orders r) /\
              tag_admitted ∅ ∅ node /\ _map node = Ok o /\
              Order.tags o = RawNode.tags node) os.
Proof.
  destruct (fetch_orders (Tests.single_page [Tests.make_node "gid://shopify/Order/1" "#1001" ["VIP"]])
              ∅ ∅ 1%nat Tests.since) as [out tr] eqn:E.
  destruct out as [os|err|]; [|vm_compute in E; discriminate|vm_compute in E; discriminate].
  exists os, tr. split; [reflexivity|].
  exact (fetch_orders_tags_verbatim _ _ _ _ _ _ _ E).
Defined.

(** * Properties of the report, the HTTP clients, the executor, the mapper
      and the repository *)

(** ** Strings *)

Lemma string_app_nil_l (s : string) : ("" ++ s)%string = s.
Proof. reflexivity. Qed.

Lemma string_app_cons c (s1 s2 : string) : (String c s1 ++ s2 = String c (s1 ++ s2))%string.
Proof. reflexivity. Qed.

Lemma string_app_assoc' (s1 s2 s3 : string) : (s1 ++ s2 ++ s3 = (s1 ++ s2) ++ s3)%string.
Proof. induction s1 as [|c s1 IH]; [reflexivity|]. by rewrite !string_app_cons, IH. Qed.

Lemma py_replace_char_app old new (s1 s2 : string) :
  py_replace_char old new (s1 ++ s2)
  = (py_replace_char old new s1 ++ py_replace_char old new s2)%string.
Proof.
  induction s1 as [|c s1 IH]; [reflexivity|].
  rewrite string_app_cons. cbn [py_replace_char]. rewrite IH. apply string_app_assoc'.
Qed.

Lemma html_escape_app (s1 s2 : string) :
  html_escape (s1 ++ s2) = (html_escape s1 ++ html_escape s2)%string.
Proof. unfold html_escape. by rewrite !py_replace_char_app. Qed.

Lemma html_escape_cons c s :
  html_escape (String c s) = (html_escape (String c EmptyString) ++ html_escape s)%string.
Proof. apply (html_escape_app (String c EmptyString) s). Qed.

Lemma count_char_app c (s1 s2 : string) :
  count_char c (s1 ++ s2) = (count_char c s1 + count_char c s2)%nat.
Proof.
  induction s1 as [|c' s1 IH]; [reflexivity|].
  rewrite string_app_cons. cbn [count_char]. rewrite IH. lia.
Qed.

(** A property of every character, checked on the 256 codes. *)
Lemma forall_ascii (P : Ascii.ascii -> Prop) :
  Forall (fun n => P (Ascii.ascii_of_nat n)) (seq 0 256) -> forall c, P c.
Proof.
  intros H c. rewrite <- (Ascii.ascii_nat_embedding c).
  rewrite Forall_forall in H. apply H. apply elem_of_seq.
  pose proof (Ascii.nat_ascii_bounded c). lia.
Qed.

Lemma html_escape_lt_char a : count_char "<"%char (html_escape (String a EmptyString)) = 0%nat.
Proof. revert a. apply forall_ascii. vm_compute. repeat constructor. Qed.

Lemma html_escape_lt s : count_char "<"%char (html_escape s) = 0%nat.
Proof.
  induction s as [|a s IH]; [reflexivity|].
  rewrite html_escape_cons, count_char_app, IH, html_escape_lt_char. reflexivity.
Qed.

Lemma unescape_entities_char a r :
  unescape_entities (html_escape (String a EmptyString) ++ r) = String a (unescape_entities r).
Proof. destruct a as [[] [] [] [] [] [] [] []]; reflexivity. Qed.

Lemma unescape_entities_html_escape s : unescape_entities (html_escape s) = s.
Proof.
  induction s as [|a s IH]; [reflexivity|].
  rewrite html_escape_cons, unescape_entities_char, IH. reflexivity.
Qed.

Lemma count_char_concat c sep (l : list string) k :
  count_char c sep = 0%nat -> Forall (fun s => count_char c s = k) l ->
  count_char c (String.concat sep l) = (k * length l)%nat.
Proof.
  intros Hsep. induction 1 as [|s l Hs Hl IH]; [simpl; lia|].
  destruct l as [|s' l'].
  - simpl. rewrite Hs. lia.
  - change (String.concat sep (s :: s' :: l'))
      with (s ++ sep ++ String.concat sep (s' :: l'))%string.
    rewrite !count_char_app, Hs, Hsep, IH. simpl. lia.
Qed.

Lemma concat_map_lt {A} sep (f : A -> string) l k :
  count_char "<"%char sep = 0%nat -> (forall x, count_char "<"%char (f x) = k) ->
  count_char "<"%char (String.concat sep (map f l)) = (k * length l)%nat.
Proof.
  intros Hsep Hf. rewrite (count_char_concat _ _ _ k Hsep), length_map; [reflexivity|].
  induction l; constructor; auto.
Qed.

Lemma digit_char_not_lt d : (d < 10)%N -> digit_char d <> "<"%char.
Proof.
  intros Hd. rewrite <- (N2Nat.id d). assert (N.to_nat d < 10)%nat as Hk by lia.
  generalize (N.to_nat d) Hk. clear d Hd Hk. intros k Hk.
  do 10 (destruct k as [|k]; [vm_compute; discriminate|]). lia.
Qed.

Lemma decimal_go_lt fuel n acc :
  count_char "<"%char (decimal_go fuel n acc) = count_char "<"%char acc.
Proof.
  revert n acc. induction fuel as [|fuel IH]; intros n acc; [reflexivity|].
  cbn [decimal_go].
  assert (count_char "<"%char (String (digit_char (n mod 10)%N) acc)
          = count_char "<"%char acc) as E.
  { cbn [count_char]. rewrite decide_False; [reflexivity|].
    apply digit_char_not_lt, N.mod_lt. lia. }
  case_decide; [exact E|]. rewrite IH. exact E.
Qed.

Lemma py_str_nat_lt n : count_char "<"%char (py_str_nat n) = 0%nat.
Proof. apply decimal_go_lt. Qed.

(** Counts of a character in string literals, computed. *)
Ltac count_literals :=
  unfold DQ, NL;
  repeat match goal with
  | |- context [count_char ?c (String ?a ?s)] =>
      let n := eval vm_compute in (count_char c (String a s)) in
      change (count_char c (String a s)) with n
  | |- context [count_char ?c _CSS] =>
      let n := eval vm_compute in (count_char c _CSS) in
      change (count_char c _CSS) with n
  end.

Lemma _badge_lt text kind : count_char "<"%char (_badge text kind) = 2%nat.
Proof.
  destruct text as [[|a t]|]; [reflexivity| |reflexivity].
  cbn [_badge]. rewrite !count_char_app, html_escape_lt.
  case_decide as Hin.
  - repeat (apply elem_of_cons in Hin as [Hin|Hin]); [..|apply elem_of_nil in Hin as []];
      rewrite Hin; reflexivity.
  - reflexivity.
Qed.

Lemma order_row_lt str_datetime o : count_char "<"%char (order_row str_datetime o) = 18%nat.
Proof.
  unfold order_row. rewrite !count_char_app, !html_escape_lt, !_badge_lt. reflexivity.
Qed.

Lemma everstox_block_lt json_payload pair :
  count_char "<"%char (everstox_block json_payload pair) = 8%nat.
Proof.
  destruct pair as [so eo]. unfold everstox_block. cbv zeta.
  rewrite !count_char_app, !html_escape_lt. count_literals. lia.
Qed.

Lemma _orders_table_lt str_datetime orders :
  count_char "<"%char (_orders_table str_datetime orders) = (18 + 18 * length orders)%nat.
Proof.
  unfold _orders_table. cbv zeta. rewrite !count_char_app.
  rewrite (concat_map_lt _ _ _ 18); [|reflexivity|apply order_row_lt].
  count_literals. lia.
Qed.

Lemma _everstox_details_lt json_payload pairs :
  count_char "<"%char (_everstox_details json_payload pairs) = (8 * length pairs)%nat.
Proof. apply concat_map_lt; [reflexivity|apply everstox_block_lt]. Qed.

Lemma py_rstrip_snoc c (s : string) :
  py_rstrip c (s ++ String c EmptyString) = py_rstrip c s.
Proof.
  induction s as [|c' s IH].
  - rewrite string_app_nil_l. cbn [py_rstrip]. rewrite decide_True; [reflexivity|]. done.
  - rewrite string_app_cons. cbn [py_rstrip]. rewrite IH. reflexivity.
Qed.

Lemma py_rstrip_last c c' (s : string) :
  c' <> c -> py_rstrip c (s ++ String c' EmptyString) = (s ++ String c' EmptyString)%string.
Proof.
  intros Hc. induction s as [|a s IH].
  - rewrite string_app_nil_l. cbn [py_rstrip]. rewrite decide_False; [reflexivity|].
    intros [? _]. contradiction.
  - rewrite string_app_cons. cbn [py_rstrip]. rewrite IH.
    rewrite decide_False; [reflexivity|]. intros [_ Hnil].
    destruct s; discriminate.
Qed.

(** ** The decorator and the clients *)

Lemma log_errors_log {A} q (r : xresult A) :
  log_errors q r = (r, match r with XOk _ => [] | XErr e => [LogError q e] end).
Proof. by destruct r. Qed.

(** ** The executor *)

Lemma send_all_prefix send pre es rest sent :
  map_result map_order_to_everstox pre = Ok es ->
  Forall (fun e => exists j, send e = XOk j) es ->
  Executor.send_all send (pre ++ rest) sent =
    let '(r, t) := Executor.send_all send rest (sent ++ zip pre es) in
    (r, map SendOrder es ++ t).
Proof.
  revert es sent. induction pre as [|o pre IH]; intros es sent Hes Hsend.
  - injection Hes as <-. cbn. rewrite app_nil_r.
    destruct (Executor.send_all send rest sent); reflexivity.
  - cbn [map_result] in Hes.
    destruct (map_order_to_everstox o) as [eo|err] eqn:Eo; [|discriminate].
    cbn [result_bind] in Hes.
    destruct (map_result map_order_to_everstox pre) as [es'|err] eqn:Epre; [|discriminate].
    injection Hes as <-. inversion Hsend as [|? ? [j Hj] Hsend']; subst.
    cbn [app Executor.send_all]. rewrite Eo, Hj.
    rewrite (IH es' (sent ++ [(o, eo)]) eq_refl Hsend').
    rewrite <- app_assoc. cbn [app zip].
    destruct (Executor.send_all _ _ _); reflexivity.
Qed.

(** ** The mapper *)

Lemma map_result_Err {A B} (f : A -> result B) xs e :
  map_result f xs = Err e -> exists x, x ∈ xs /\ f x = Err e.
Proof.
  induction xs as [|x xs IH]; cbn [map_result]; [discriminate|].
  destruct (f x) as [y|e'] eqn:Ex; cbn.
  - destruct (map_result f xs) as [ys|e'] eqn:Exs; cbn; [discriminate|].
    intros [= ->]. destruct (IH eq_refl) as (x' & Hx' & Hf).
    exists x'. split; [by apply elem_of_cons; right|exact Hf].
  - intros [= ->]. exists x. split; [apply elem_of_cons; left; done|done].
Qed.

Lemma map_order_item_Err opts item e :
  map_order_item opts item = Err e -> e = ValidationError.
Proof.
  unfold map_order_item.
  destruct (map_result _ _) as [cas|e'] eqn:Ecas; cbn.
  - unfold new_OrderItem. case_decide; [discriminate|]. by intros [= <-].
  - intros [= ->]. apply map_result_Err in Ecas as (a & _ & Ha).
    unfold new_CustomAttribute in Ha. destruct (Attribute.value a); [discriminate|].
    by injection Ha as <-.
Qed.

Lemma map_order_item_valid opts item out :
  map_order_item opts item = Ok out -> item_valid item.
Proof.
  unfold map_order_item. intros H.
  apply result_bind_Ok in H as (cas & Hcas & H).
  unfold new_OrderItem in H. case_decide as Hq; [|discriminate].
  split; [exact Hq|].
  apply map_result_Forall2 in Hcas. clear H.
  induction Hcas as [|a ca attrs cas' Ha _ IH]; constructor; [|exact IH].
  unfold new_CustomAttribute in Ha. destruct (Attribute.value a); [discriminate|done].
Qed.

Lemma map_order_item_quantity opts item out :
  map_order_item opts item = Ok out ->
  1 <= OrderItem.quantity out /\ OrderItem.shipment_options out = opts.
Proof.
  unfold map_order_item. intros H.
  apply result_bind_Ok in H as (cas & _ & H).
  unfold new_OrderItem in H. case_decide as Hq; [|discriminate].
  injection H as <-. done.
Qed.

Lemma map_order_to_everstox_items o e :
  map_order_to_everstox o = Ok e ->
  match Order.line_items o with
  | [] => EverstoxOrder.order_items e
            = [OrderItem.mk 1 (Product.mk "TODO") [] [] [] None None None None]
  | items => Forall2 (fun item out => map_order_item (shipment_options_of o) item = Ok out)
               items (EverstoxOrder.order_items e)
  end.
Proof.
  unfold map_order_to_everstox. intros H.
  apply result_bind_Ok in H as (items & Hitems & H). injection H as <-. cbn.
  destruct (Order.line_items o) as [|item rest].
  - injection Hitems as <-. reflexivity.
  - apply map_result_Forall2 in Hitems. exact Hitems.
Qed.

Lemma map_order_to_everstox_valid o e :
  map_order_to_everstox o = Ok e -> Forall item_valid (Order.line_items o).
Proof.
  intros H. apply map_order_to_everstox_items in H.
  destruct (Order.line_items o) as [|item rest]; [constructor|].
  clear -H. induction H as [|x y xs ys Hxy _ IH]; constructor; [|exact IH].
  apply (map_order_item_valid _ _ _ Hxy).
Qed.

(** ** The repository *)

Lemma filter_idem {A} (P : A -> Prop) `{forall x, Decision (P x)} (l : list A) :
  filter P (filter P l) = filter P l.
Proof.
  induction l as [|x l IH]; [reflexivity|].
  rewrite !filter_cons. case_decide; [|exact IH].
  rewrite filter_cons, decide_True by done. by rewrite IH.
Qed.

Section Fetch.
Variable execute : Variables.t -> result Response.t.
Variables BLACKLIST WHITELIST : gset string.

Lemma fetch_loop_never_done :
  (forall v r, execute v = Ok r ->
     PageInfo.hasNextPage (Page.pageInfo (Response.orders r)) = true) ->
  forall fuel q c acc os tr, fetch_loop execute BLACKLIST WHITELIST fuel q c acc <> (Done os, tr).
Proof.
  intros Hnext fuel. induction fuel as [|fuel IH]; intros q c acc os tr H; [discriminate|].
  apply fetch_loop_step in H as (r & new & t_rest & Hr & _ & _ & Hloop).
  rewrite (Hnext _ _ Hr) in Hloop. exact (IH _ _ _ _ _ Hloop).
Qed.

Lemma page_orders_Forall (P : Order.t -> Prop) es new :
  (forall node o, _map node = Ok o -> P o) ->
  page_orders BLACKLIST WHITELIST es = Ok new -> Forall P new.
Proof.
  intros HP. revert new. induction es as [|node es IH]; intros new H; cbn [page_orders] in H.
  - injection H as <-. constructor.
  - destruct (is_kept BLACKLIST WHITELIST node); [|exact (IH _ H)].
    apply result_bind_Ok in H as (o & Ho & H).
    apply result_bind_Ok in H as (os & Hos & H). injection H as <-.
    constructor; [exact (HP _ _ Ho)|exact (IH _ Hos)].
Qed.
End Fetch.

Lemma _map_quantities node o :
  _map node = Ok o -> Forall (fun li => 1 <= OrderLineItem.quantity li) (Order.line_items o).
Proof.
  intros H. apply _map_line_items, map_result_Forall2 in H.
  assert (Forall (fun item => 0 < RawLineItem.unfulfilledQuantity item)
            (filter (fun item => 0 < RawLineItem.unfulfilledQuantity item)
               (RawNode.lineItems node))) as Hpos.
  { apply Forall_forall. intros x Hx. apply list_elem_of_filter in Hx as [Hx _]. exact Hx. }
  revert Hpos. induction H as [|raw li raws lis Hli _ IH]; intros Hpos; constructor.
  - inversion Hpos; subst. apply map_line_item_fields in Hli as [_ ->]. lia.
  - inversion Hpos; subst. apply IH; assumption.
Qed.

(** ** The report *)

(** X1. [html_escape], which the report applies to every order field it
    shows, is injective: two different field values never render as the
    same text. *)
Theorem html_escape_injective s1 s2 : html_escape s1 = html_escape s2 <-> s1 = s2.
Proof.
  split; [|intros ->; reflexivity].
  intros H. rewrite <- (unescape_entities_html_escape s1), <- (unescape_entities_html_escape s2).
  by rewrite H.
Qed.

(** X2. The orders table of the report has exactly [18 + 18 * n] opening
    angle brackets for [n] orders, whatever the orders' names, statuses,
    totals, currencies and dates hold: order data adds no markup. *)
Theorem orders_table_markup str_datetime orders :
  count_char "<"%char (_orders_table str_datetime orders) = (18 + 18 * length orders)%nat.
Proof. apply _orders_table_lt. Qed.

(** X3. When the generation timestamp holds no [<], the whole report page
    has exactly [53 + 18 * n + 8 * m] opening angle brackets for [n] loaded
    orders and [m] sent pairs, whatever the orders and the payloads hold. *)
Theorem build_html_report_markup str_datetime json_payload generated_at orders pairs :
  count_char "<"%char generated_at = 0%nat ->
  count_char "<"%char (build_html_report str_datetime json_payload generated_at orders pairs)
    = (53 + 18 * length orders + 8 * length pairs)%nat.
Proof.
  intros Hg. unfold build_html_report.
  rewrite !count_char_app, Hg, !py_str_nat_lt, _orders_table_lt, _everstox_details_lt.
  count_literals. lia.
Qed.

Lemma build_html_report_markup_witness :
  count_char "<"%char "2026-10-18 12:00:00 UTC" = 0%nat /\
  count_char "<"%char
    (build_html_report (fun s => s) (fun _ => "{}") "2026-10-18 12:00:00 UTC"
       [Tests.make_order None None []] [])
  = (53 + 18 * length [Tests.make_order None None []]
        + 8 * length (@nil (Order.t * EverstoxOrder.t)))%nat.
Proof.
  split; [reflexivity|].
  apply (build_html_report_markup (fun s => s) (fun _ => "{}") "2026-10-18 12:00:00 UTC"
           [Tests.make_order None None []] []).
  reflexivity.
Defined.

(** ** The clients *)

(** X4. The Everstox endpoint is the base URL without its trailing slashes
    followed by the create-order path: a base URL with one more trailing
    slash gives the same endpoint, and a base URL that ends in another
    character is used as it is. *)
Theorem everstox_endpoint base_url api_key :
  EverstoxService._endpoint (EverstoxService.new (base_url ++ "/") api_key)
    = EverstoxService._endpoint (EverstoxService.new base_url api_key) /\
  (forall c, c <> "/"%char ->
   EverstoxService._endpoint (EverstoxService.new (base_url ++ String c EmptyString) api_key)
     = (base_url ++ String c EmptyString ++ EverstoxService.CREATE_ORDER_PATH)%string).
Proof.
  unfold EverstoxService.new. cbn [EverstoxService._endpoint]. split.
  - rewrite py_rstrip_snoc. reflexivity.
  - intros c Hc. rewrite py_rstrip_last by exact Hc. symmetry. apply string_app_assoc'.
Qed.

Lemma everstox_endpoint_witness :
  "m"%char <> "/"%char /\
  EverstoxService._endpoint (EverstoxService.new ("https://api.everstox.co" ++ "m") "key")
    = ("https://api.everstox.co" ++ "m" ++ EverstoxService.CREATE_ORDER_PATH)%string.
Proof.
  split; [discriminate|].
  apply (proj2 (everstox_endpoint "https://api.everstox.co" "key") "m"%char).
  discriminate.
Defined.

(** X5. [ShopifyGraphQLClient.execute] returns a value exactly when the
    POST got a 2xx response whose body is a JSON object with no truthy
    [errors] entry; the value is then that whole body. *)
Theorem shopify_execute_ok httpx_post self query variables body :
  fst (ShopifyGraphQLClient.execute httpx_post self query variables) = XOk body <->
  exists response kvs,
    httpx_post (ShopifyGraphQLClient._endpoint self) (ShopifyGraphQLClient._headers self)
      (JObj (ShopifyGraphQLClient.payload query variables)) = Posted response /\
    is_success response = true /\
    HttpResponse.content response = Some (JObj kvs) /\
    body = JObj kvs /\
    match dict_get "errors" kvs with Some errors => py_truthy errors = false | None => True end.
Proof.
  unfold ShopifyGraphQLClient.execute. rewrite log_errors_log. cbn [fst].
  unfold ShopifyGraphQLClient.execute_body, response_json.
  destruct (httpx_post _ _ _) as [response|name];
    [|split; [discriminate|intros (? & ? & ? & _); discriminate]].
  destruct (is_success response) eqn:Hs; cbn [negb];
    [|split; [discriminate|intros (? & ? & [=<-] & ? & _); congruence]].
  destruct (HttpResponse.content response) as [j|] eqn:Hc;
    [|split; [discriminate|intros (? & ? & [=<-] & _ & ? & _); congruence]].
  split.
  - intros H. destruct j as [| | | | |kvs]; try discriminate.
    exists response, kvs. split; [done|]. split; [done|]. split; [done|].
    destruct (dict_get "errors" kvs) as [errors|].
    + destruct (py_truthy errors); [discriminate|]. injection H as <-. done.
    + injection H as <-. done.
  - intros (response' & kvs & [= <-] & _ & Hc' & -> & Herr).
    rewrite Hc in Hc'. injection Hc' as ->.
    destruct (dict_get "errors" kvs) as [errors|]; [|reflexivity].
    rewrite Herr. reflexivity.
Qed.

(** X6. When [ShopifyGraphQLClient.execute] raises, it logs exactly one
    error line naming [ShopifyGraphQLClient.execute] and that exception.
    The exception is either the one the [httpx.post] call itself raised
    (a transport error, [InvalidURL], ...), or, after a response came back,
    one of [HTTPStatusError], the [ValueError] of a non-JSON body, the
    [AttributeError] of a JSON body that is not an object, or
    [ShopifyGraphQLError]. *)
Theorem shopify_execute_errors httpx_post self query variables e :
  fst (ShopifyGraphQLClient.execute httpx_post self query variables) = XErr e ->
  snd (ShopifyGraphQLClient.execute httpx_post self query variables)
    = [LogError "ShopifyGraphQLClient.execute" e] /\
  ((exists name,
      httpx_post (ShopifyGraphQLClient._endpoint self) (ShopifyGraphQLClient._headers self)
        (JObj (ShopifyGraphQLClient.payload query variables)) = PostRaised name /\
      e = PostError name) \/
   (exists response,
      httpx_post (ShopifyGraphQLClient._endpoint self) (ShopifyGraphQLClient._headers self)
        (JObj (ShopifyGraphQLClient.payload query variables)) = Posted response /\
      (e = PyErr HTTPStatusError \/ e = PyErr ValueError \/
       e = AttributeError \/ e = PyErr ShopifyGraphQLError))).
Proof.
  unfold ShopifyGraphQLClient.execute. rewrite log_errors_log. cbn [fst snd].
  intros He. rewrite He. split; [reflexivity|].
  revert He. unfold ShopifyGraphQLClient.execute_body, response_json.
  destruct (httpx_post _ _ _) as [response|name];
    [|intros [= <-]; left; exists name; split; reflexivity].
  intros He. right. exists response. split; [reflexivity|]. revert He.
  destruct (negb (is_success response)); [intros [= <-]; tauto|].
  destruct (HttpResponse.content response) as [j|]; [|intros [= <-]; tauto].
  destruct j as [| | | | |kvs]; try (intros [= <-]; tauto).
  destruct (dict_get "errors" kvs) as [errors|]; [|discriminate].
  destruct (py_truthy errors); [intros [= <-]; tauto|discriminate].
Qed.

Lemma shopify_execute_errors_witness :
  fst (ShopifyGraphQLClient.execute (fun _ _ _ => PostRaised "InvalidURL")
         (ShopifyGraphQLClient.new "shop" "token" "2025-01") "{ shop { name } }" None)
    = XErr (PostError "InvalidURL") /\
  snd (ShopifyGraphQLClient.execute (fun _ _ _ => PostRaised "InvalidURL")
         (ShopifyGraphQLClient.new "shop" "token" "2025-01") "{ shop { name } }" None)
    = [LogError "ShopifyGraphQLClient.execute" (PostError "InvalidURL")] /\
  ((exists name,
      PostRaised "InvalidURL" = PostRaised name /\ PostError "InvalidURL" = PostError name) \/
   (exists response,
      PostRaised "InvalidURL" = Posted response /\
      (PostError "InvalidURL" = PyErr HTTPStatusError \/
       PostError "InvalidURL" = PyErr ValueError \/
       PostError "InvalidURL" = AttributeError \/
       PostError "InvalidURL" = PyErr ShopifyGraphQLError))).
Proof.
  split; [reflexivity|].
  apply (shopify_execute_errors (fun _ _ _ => PostRaised "InvalidURL")
           (ShopifyGraphQLClient.new "shop" "token" "2025-01") "{ shop { name } }" None).
  reflexivity.
Defined.

(** X7. [EverstoxService.send_order] raises [EverstoxAPIError] with a status
    code and a text exactly when the POST got a response that is not 2xx
    with that status code and text; after a 2xx response it returns the
    parsed JSON body (or raises the [ValueError] of a non-JSON body); it
    logs one error line, naming [EverstoxService.send_order], exactly when
    it raises. *)
Theorem everstox_send_order_outcome client_post model_dump self order :
  let request := client_post (EverstoxService._endpoint self) (EverstoxService._headers self)
                   (model_dump order) in
  let '(r, log) := EverstoxService.send_order client_post model_dump self order in
  (forall code text,
     r = XErr (EverstoxAPIError code text) <->
     exists response, request = Posted response /\ is_success response = false /\
       HttpResponse.status_code response = code /\ HttpResponse.text response = text) /\
  (forall response, request = Posted response -> is_success response = true ->
     r = response_json response) /\
  log = match r with XOk _ => [] | XErr e => [LogError "EverstoxService.send_order" e] end.
Proof.
  cbv zeta. unfold EverstoxService.send_order. rewrite log_errors_log.
  split; [|split; [|reflexivity]];
    unfold EverstoxService.send_order_body; cbv zeta.
  - intros code text.
    destruct (client_post _ _ _) as [response|name];
      [|split; [discriminate|intros (? & ? & _); discriminate]].
    destruct (is_success response) eqn:Hs; cbn [negb].
    + split.
      * unfold response_json. destruct (HttpResponse.content response); discriminate.
      * intros (? & [= <-] & ? & _). congruence.
    + split.
      * intros [= <- <-]. eauto.
      * intros (? & [= <-] & _ & <- & <-). reflexivity.
  - intros response -> ->. reflexivity.
Qed.

(** ** The executor *)

(** X8. When every order maps and every send succeeds, [Executor.run] sends
    the mapped orders in order, then generates the report once, from all
    loaded orders and the (order, payload) pairs in order; it fails only if
    the report generation does. *)
Theorem executor_run_sends_all get send generate days orders es :
  get days = XOk orders ->
  map_result map_order_to_everstox orders = Ok es ->
  Forall (fun e => exists j, send e = XOk j) es ->
  Executor.run get send generate days =
    (match generate orders (zip orders es) with XOk _ => XOk tt | XErr e => XErr e end,
     map SendOrder es ++ [GenerateReport orders (zip orders es)]).
Proof.
  intros Hget Hes Hsend. unfold Executor.run. rewrite Hget.
  pose proof (send_all_prefix send orders es [] [] Hes Hsend) as E.
  rewrite app_nil_r in E. rewrite E. cbn. rewrite app_nil_r.
  destruct (generate orders (zip orders es)); reflexivity.
Qed.

Lemma executor_run_sends_all_witness :
  exists es,
    map_result map_order_to_everstox [Tests.make_order None None [Tests.widget_item]] = Ok es /\
    Executor.run (fun _ => XOk [Tests.make_order None None [Tests.widget_item]])
      (fun _ => XOk JNull) (fun _ _ => XOk "report.html") 14
    = (XOk tt, map SendOrder es ++
         [GenerateReport [Tests.make_order None None [Tests.widget_item]]
            (zip [Tests.make_order None None [Tests.widget_item]] es)]).
Proof.
  destruct (map_result map_order_to_everstox [Tests.make_order None None [Tests.widget_item]])
    as [es|err] eqn:E; [|vm_compute in E; discriminate].
  exists es. split; [reflexivity|].
  apply (executor_run_sends_all (fun _ => XOk [Tests.make_order None None [Tests.widget_item]])
           (fun _ => XOk JNull) (fun _ _ => XOk "report.html") 14
           [Tests.make_order None None [Tests.widget_item]] es eq_refl E).
  apply Forall_forall. intros e _. exists JNull. reflexivity.
Defined.

(** X9. [Executor.run] stops at the first order that fails: the orders
    before it have been sent, a mapping error is raised before anything is
    sent for that order, a send error is raised after sending it, no later
    order is sent and no report is generated. *)
Theorem executor_run_stops get send generate days orders pre o post es_pre :
  get days = XOk orders ->
  orders = pre ++ o :: post ->
  map_result map_order_to_everstox pre = Ok es_pre ->
  Forall (fun e => exists j, send e = XOk j) es_pre ->
  (forall err, map_order_to_everstox o = Err err ->
     Executor.run get send generate days = (XErr (PyErr err), map SendOrder es_pre)) /\
  (forall eo e, map_order_to_everstox o = Ok eo -> send eo = XErr e ->
     Executor.run get send generate days = (XErr e, map SendOrder es_pre ++ [SendOrder eo])).
Proof.
  intros Hget -> Hes Hsend. unfold Executor.run. rewrite Hget.
  rewrite (send_all_prefix send pre es_pre (o :: post) [] Hes Hsend).
  cbn [Executor.send_all]. split.
  - intros err ->. rewrite app_nil_r. reflexivity.
  - intros eo e -> ->. reflexivity.
Qed.

Lemma executor_run_stops_witness :
  exists es_pre,
    map_result map_order_to_everstox [Tests.make_order None None [Tests.widget_item]]
      = Ok es_pre /\
    Executor.run
      (fun _ => XOk [Tests.make_order None None [Tests.widget_item];
                     Tests.make_order None None [Tests.null_attribute_item];
                     Tests.make_order None None [Tests.widget_item]])
      (fun _ => XOk JNull) (fun _ _ => XOk "report.html") 14
    = (XErr (PyErr ValidationError), map SendOrder es_pre).
Proof.
  destruct (map_result map_order_to_everstox [Tests.make_order None None [Tests.widget_item]])
    as [es|err] eqn:E; [|vm_compute in E; discriminate].
  exists es. split; [reflexivity|].
  apply (executor_run_stops
           (fun _ => XOk [Tests.make_order None None [Tests.widget_item];
                          Tests.make_order None None [Tests.null_attribute_item];
                          Tests.make_order None None [Tests.widget_item]])
           (fun _ => XOk JNull) (fun _ _ => XOk "report.html") 14 _
           [Tests.make_order None None [Tests.widget_item]]
           (Tests.make_order None None [Tests.null_attribute_item])
           [Tests.make_order None None [Tests.widget_item]] es eq_refl eq_refl E).
  - apply Forall_forall. intros e _. exists JNull. reflexivity.
  - vm_compute. reflexivity.
Defined.

(** ** The mapper *)

(** X10. Every Everstox order [map_order_to_everstox] returns has at least
    one item, and every item has a quantity of at least 1. *)
Theorem map_order_items_quantity o e :
  map_order_to_everstox o = Ok e ->
  EverstoxOrder.order_items e <> [] /\
  Forall (fun it => 1 <= OrderItem.quantity it) (EverstoxOrder.order_items e).
Proof.
  intros H. apply map_order_to_everstox_items in H.
  destruct (Order.line_items o) as [|item rest].
  - rewrite H. split; [done|]. repeat constructor. cbn. lia.
  - split.
    + intros Hnil. rewrite Hnil in H. inversion H.
    + clear -H. induction H as [|x y xs ys Hxy _ IH]; constructor; [|exact IH].
      apply (map_order_item_quantity _ _ _ Hxy).
Qed.

Lemma map_order_items_quantity_witness :
  exists e,
    map_order_to_everstox (Tests.make_order None None [Tests.widget_item]) = Ok e /\
    EverstoxOrder.order_items e <> [] /\
    Forall (fun it => 1 <= OrderItem.quantity it) (EverstoxOrder.order_items e).
Proof.
  destruct (map_order_to_everstox (Tests.make_order None None [Tests.widget_item]))
    as [e|err] eqn:E; [|vm_compute in E; discriminate].
  exists e. split; [reflexivity|]. exact (map_order_items_quantity _ _ E).
Defined.

(** X11. With line items, every item of the mapped order has as shipment
    options the single option named after the shipping line's title, or
    none when the order has no shipping line; the placeholder item of an
    order without line items has no shipment options, even when the order
    has a shipping line. *)
Theorem map_order_shipment_options o e :
  map_order_to_everstox o = Ok e ->
  Forall (fun it => OrderItem.shipment_options it
                    = match Order.line_items o with [] => [] | _ => shipment_options_of o end)
    (EverstoxOrder.order_items e).
Proof.
  intros H. apply map_order_to_everstox_items in H.
  destruct (Order.line_items o) as [|item rest].
  - rewrite H. repeat constructor.
  - clear -H. induction H as [|x y xs ys Hxy _ IH]; constructor; [|exact IH].
    apply (map_order_item_quantity _ _ _ Hxy).
Qed.

Lemma map_order_shipment_options_witness :
  exists e,
    map_order_to_everstox
      (Tests.make_order None (Some Tests.spec_shipping_line) [Tests.widget_item]) = Ok e /\
    Forall (fun it => OrderItem.shipment_options it
                      = [ShipmentOption.mk None (Some "Express")])
      (EverstoxOrder.order_items e).
Proof.
  destruct (map_order_to_everstox
              (Tests.make_order None (Some Tests.spec_shipping_line) [Tests.widget_item]))
    as [e|err] eqn:E; [|vm_compute in E; discriminate].
  exists e. split; [reflexivity|]. exact (map_order_shipment_options _ _ E).
Defined.

(** X12. An order without line items always maps, to an order with the
    single placeholder item: quantity 1, SKU [TODO], and no shipment
    options, price set or custom attributes. *)
Theorem map_order_empty_line_items o :
  Order.line_items o = [] ->
  exists e, map_order_to_everstox o = Ok e /\
    EverstoxOrder.order_items e
      = [OrderItem.mk 1 (Product.mk "TODO") [] [] [] None None None None].
Proof.
  intros Hnil. unfold map_order_to_everstox. rewrite Hnil. cbn.
  eexists. split; reflexivity.
Qed.

Lemma map_order_empty_line_items_witness :
  Order.line_items (Tests.make_order None (Some Tests.spec_shipping_line) []) = [] /\
  exists e, map_order_to_everstox (Tests.make_order None (Some Tests.spec_shipping_line) []) = Ok e /\
    EverstoxOrder.order_items e
      = [OrderItem.mk 1 (Product.mk "TODO") [] [] [] None None None None].
Proof.
  split; [reflexivity|]. apply map_order_empty_line_items. reflexivity.
Defined.

(** X13. [map_order_to_everstox] succeeds exactly when every line item has
    a quantity of at least 1 and only custom attributes with a value; when
    it raises, the exception is a pydantic validation error. *)
Theorem map_order_to_everstox_raises o :
  ((exists e, map_order_to_everstox o = Ok e) <-> Forall item_valid (Order.line_items o)) /\
  (forall err, map_order_to_everstox o = Err err -> err = ValidationError).
Proof.
  split; [split|].
  - intros [e H]. exact (map_order_to_everstox_valid o e H).
  - intros Hv. apply map_order_to_everstox_ok, Hv.
  - unfold map_order_to_everstox. intros err.
    destruct (Order.line_items o) as [|item rest]; [cbn; discriminate|].
    unfold _map_order_items. fold (shipment_options_of o).
    destruct (map_result (map_order_item (shipment_options_of o)) (item :: rest))
      as [outs|e] eqn:E; cbn; [discriminate|].
    intros [= <-]. apply map_result_Err in E as (x & _ & Hx).
    apply (map_order_item_Err _ _ _ Hx).
Qed.

(** ** The repository *)

(** X14. [_map] never reads a line item whose unfulfilled quantity is not
    positive: dropping those items from a node leaves the result of [_map],
    order or exception, unchanged. *)
Theorem _map_ignores_fulfilled_items node items :
  _map (with_lineItems node items)
    = _map (with_lineItems node
              (filter (fun item => 0 < RawLineItem.unfulfilledQuantity item) items)).
Proof. unfold _map. cbn [RawNode.lineItems with_lineItems]. rewrite filter_idem. reflexivity. Qed.

(** X15. If every page the client returns reports [hasNextPage], the
    [fetch_orders] loop never returns orders, whatever its number of turns. *)
Theorem fetch_orders_needs_last_page execute BLACKLIST WHITELIST fuel since os tr :
  (forall v r, execute v = Ok r ->
     PageInfo.hasNextPage (Page.pageInfo (Response.orders r)) = true) ->
  fetch_orders execute BLACKLIST WHITELIST fuel since <> (Done os, tr).
Proof. intros Hnext. apply fetch_loop_never_done, Hnext. Qed.

Lemma fetch_orders_needs_last_page_witness :
  fetch_orders (fun _ => Ok (Tests.page_response None true (Some "c") [])) ∅ ∅ 5%nat
    Tests.since <> (Done [], []).
Proof.
  apply fetch_orders_needs_last_page. intros v r [= <-]. reflexivity.
Defined.

(** X16. The throttle check never pauses after a response with no
    [extensions] (the defaults give 1000 points available and a cost of 0);
    with a reported [restoreRate] of 0 and a budget below the cost plus the
    buffer, it raises [ZeroDivisionError] without sleeping. *)
Theorem throttle_edge_cases r :
  (Response.extensions r = None -> throttle r = (Done tt, [])) /\
  (ThrottleStatus.restoreRate (response_throttle r) = Some 0%float ->
   (currently_available r <? actual_cost r + COST_BUFFER)%float = true ->
   throttle r = (Raised ZeroDivisionError, [])).
Proof.
  split.
  - intros Hext.
    unfold throttle, currently_available, actual_cost, response_throttle, response_cost.
    rewrite Hext. reflexivity.
  - intros Hrate Hlow. unfold throttle. rewrite Hlow.
    unfold restore_rate. rewrite Hrate. reflexivity.
Qed.

Lemma throttle_edge_cases_witness :
  throttle (Tests.page_response
              (Some (Extensions.mk (Some (Cost.mk (Some 10%float)
                 (Some (ThrottleStatus.mk (Some 1000%float) (Some 20%float) (Some 0%float)))))))
              false None [])
  = (Raised ZeroDivisionError, []).
Proof. apply (proj2 (throttle_edge_cases _)); reflexivity. Defined.

(** X17. If the first request raises, or the throttle check after it
    raises, or a kept order of the first page cannot be mapped, then
    [fetch_orders] raises that exception after exactly one request. *)
Theorem fetch_orders_first_page_errors execute BLACKLIST WHITELIST fuel since e :
  (execute (Variables.mk (query_string since) PAGE_SIZE None) = Err e \/
   exists r, execute (Variables.mk (query_string since) PAGE_SIZE None) = Ok r /\
     (fst (throttle r) = Raised e \/
      (fst (throttle r) = Done tt /\
       page_orders BLACKLIST WHITELIST (Page.edges (Response.orders r)) = Err e))) ->
  fst (fetch_orders execute BLACKLIST WHITELIST (S fuel) since) = Raised e /\
  requests (snd (fetch_orders execute BLACKLIST WHITELIST (S fuel) since))
    = [Variables.mk (query_string since) PAGE_SIZE None].
Proof.
  unfold fetch_orders. cbn [fetch_loop]. unfold client_execute.
  intros [He | (r & Hr & Hcase)].
  - rewrite He. split; reflexivity.
  - rewrite Hr. cbn [m_bind].
    pose proof (throttle_requests r) as Hreq.
    destruct (throttle r) as [[[]|e'|] t] eqn:Ht; cbn [fst snd] in Hcase, Hreq |- *.
    + destruct Hcase as [Hc|[_ Hp]]; [discriminate|].
      rewrite Hp. cbn [m_lift m_bind fst snd]. split; [reflexivity|].
      rewrite app_nil_r.
      change (Execute (Variables.mk (query_string since) PAGE_SIZE None) :: t)
        with ([Execute (Variables.mk (query_string since) PAGE_SIZE None)] ++ t).
      rewrite requests_app, Hreq. reflexivity.
    + destruct Hcase as [[= ->]|[? _]]; [|discriminate].
      split; [reflexivity|]. cbn [m_bind snd].
      rewrite requests_app, Hreq. reflexivity.
    + destruct Hcase as [?|[? _]]; discriminate.
Qed.

Lemma fetch_orders_first_page_errors_witness :
  fst (fetch_orders (fun _ => Err HTTPStatusError) ∅ ∅ 3%nat Tests.since) = Raised HTTPStatusError /\
  requests (snd (fetch_orders (fun _ => Err HTTPStatusError) ∅ ∅ 3%nat Tests.since))
    = [Variables.mk (query_string Tests.since) PAGE_SIZE None].
Proof. apply fetch_orders_first_page_errors. left. reflexivity. Defined.

(** X18. Every order [fetch_orders] returns can be sent through
    [map_order_to_everstox] exactly when all custom attributes of its line
    items have a value: the quantity check never fails on fetched orders. *)
Theorem fetch_orders_mappable execute BLACKLIST WHITELIST fuel since os tr :
  fetch_orders execute BLACKLIST WHITELIST fuel since = (Done os, tr) ->
  Forall (fun o =>
    (exists e, map_order_to_everstox o = Ok e) <->
    Forall (fun li => Forall (fun a => Attribute.value a <> None)
                        (OrderLineItem.custom_attributes li)) (Order.line_items o)) os.
Proof.
  intros H.
  assert (Forall (fun o => Forall (fun li => 1 <= OrderLineItem.quantity li)
                             (Order.line_items o)) os) as Hq.
  { eapply (fetch_loop_Forall execute BLACKLIST WHITELIST); [|constructor|exact H].
    intros v r new _ Hnew. eapply page_orders_Forall; [|exact Hnew]. apply _map_quantities. }
  eapply Forall_impl; [exact Hq|]. intros o Hqo. split.
  - intros [e He]. apply map_order_to_everstox_valid in He.
    eapply Forall_impl; [exact He|]. intros li [_ Ha]. exact Ha.
  - intros Ha. apply map_order_to_everstox_ok.
    apply Forall_forall. intros li Hli. split.
    + rewrite Forall_forall in Hqo. exact (Hqo li Hli).
    + rewrite Forall_forall in Ha. exact (Ha li Hli).
Qed.

Lemma fetch_orders_mappable_witness :
  exists os tr,
    fetch_orders (Tests.single_page [Tests.partial_node]) ∅ ∅ 1%nat Tests.since = (Done os, tr) /\
    Forall (fun o =>
      (exists e, map_order_to_everstox o = Ok e) <->
      Forall (fun li => Forall (fun a => Attribute.value a <> None)
                          (OrderLineItem.custom_attributes li)) (Order.line_items o)) os.
Proof.
  destruct (fetch_orders (Tests.single_page [Tests.partial_node]) ∅ ∅ 1%nat Tests.since)
    as [out tr] eqn:E.
  destruct out as [os|err|]; [|vm_compute in E; discriminate|vm_compute in E; discriminate].
  exists os, tr. split; [reflexivity|].
  exact (fetch_orders_mappable _ _ _ _ _ _ _ E).
Defined.
